(** * Student dropout predictor: the classification rule and the record store

    A shallow embedding of [app.py]: the rule [predict_promotion], the three
    SQLite accessors [insert_student_data], [get_all_students] and
    [delete_student], and the Streamlit handlers that call them.

    - Python [float]s are IEEE binary64 values ([spec_float] of the standard
      library, precision 53, maximal exponent 1024); Python [int]s are [Z].
    - The [students] table has [student_id INTEGER PRIMARY KEY]: it is a
      finite map from the key to the nine other columns.
    - Each accessor wraps its SQLite calls in [try ... except Exception]; the
      call that raises, if any, and the reading of the clock are inputs of
      the model. A value that SQLite refuses to bind (an [int] outside 64
      bits) is one way for [execute] to raise.
    - The messages that the pages draw ([st.error], [st.success]) are not
      part of the model; the handlers are modelled as far as they decide which
      accessor is called and with which arguments. *)

From Stdlib Require Import ZArith Floats.SpecFloat.
From stdpp Require Import gmap strings list sorting.

Local Open Scope Z_scope.

(** ** Python floats *)

Module PyFloat.

Definition prec : Z := 53.
Definition emax : Z := 1024.

(** The binary64 values: every special value, and the finite ones whose
    mantissa and exponent are in canonical form. *)
Definition is_float (x : spec_float) : Prop := valid_binary prec emax x = true.

(** Conversion of an [int] to a [float] (round to nearest even). *)
Definition of_int (n : Z) : spec_float := binary_normalize prec emax n 0 false.

(** [x > n] for a float [x] and an int [n]: CPython converts a small [n]
    to a double and compares the two doubles; a comparison with NaN is
    false. *)
Definition gt_int (x : spec_float) (n : Z) : bool := SFltb (of_int n) x.

(** The real number denoted by a finite float with mantissa [m], exponent
    [e] and sign [s] is [(-1)^s * m * 2^e]. [exceeds x n] says that the value
    of [x] is strictly above the integer [n]; it is stated over [Z] by
    clearing the power of two when the exponent is negative. *)
Definition signed (s : bool) (m : positive) : Z := if s then Z.neg m else Z.pos m.

Definition exceeds (x : spec_float) (n : Z) : Prop :=
  match x with
  | S754_nan => False
  | S754_infinity s => s = false
  | S754_zero _ => n < 0
  | S754_finite s m e =>
      if 0 <=? e then n < signed s m * 2 ^ e else n * 2 ^ (- e) < signed s m
  end.

(** An int literal that is positive and converts to a double without
    rounding: [of_int n] is a canonical [m * 2^e] with [e <= 0] and
    [n * 2^(-e) = m]. *)
Definition exact_literal (n : Z) : bool :=
  match of_int n with
  | S754_finite false m e =>
      (0 <? n) && bounded prec emax m e && (e <=? 0) && (n * 2 ^ (- e) =? Z.pos m)
  | _ => false
  end.

(** The value of a positive finite float in units of [2^emin], the smallest
    binary64 exponent, [-1074]: an integer. *)
Definition scaled (m : positive) (e : Z) : Z := Z.pos m * 2 ^ (e + 1074).

(** The float [2.5]: [5629499534213120 = 5 * 2^50] and [5 * 2^50 * 2^(-51) = 5/2]. *)
Definition two_and_a_half : spec_float := S754_finite false 5629499534213120 (-51).

End PyFloat.

(** ** The classification rule *)

Definition Promoted : string := "Promoted".
Definition At_Risk : string := "At Risk of Dropout".

(** [predict_promotion]: one [if] over the conjunction of six comparisons;
    [income] is a parameter that the body never reads. *)
Definition predict_promotion (satisfaction attendance : spec_float)
    (failed_courses commute disciplinary : Z) (homework : spec_float)
    (income : string) : string :=
  if PyFloat.gt_int satisfaction 3 && PyFloat.gt_int attendance 70 &&
     (failed_courses <=? 2) && (commute <=? 40) && (disciplinary <=? 2) &&
     PyFloat.gt_int homework 80
  then Promoted
  else At_Risk.

(** The six clauses as the numbers satisfy them, and the inputs on which
    exactly one of them fails. *)
Definition all_clauses (satisfaction attendance : spec_float)
    (failed_courses commute disciplinary : Z) (homework : spec_float) : Prop :=
  PyFloat.exceeds satisfaction 3 /\ PyFloat.exceeds attendance 70 /\
  failed_courses <= 2 /\ commute <= 40 /\ disciplinary <= 2 /\
  PyFloat.exceeds homework 80.

Definition one_clause_fails (satisfaction attendance : spec_float)
    (failed_courses commute disciplinary : Z) (homework : spec_float) : Prop :=
  let P1 := PyFloat.exceeds satisfaction 3 in
  let P2 := PyFloat.exceeds attendance 70 in
  let P3 := failed_courses <= 2 in
  let P4 := commute <= 40 in
  let P5 := disciplinary <= 2 in
  let P6 := PyFloat.exceeds homework 80 in
  (~ P1 /\ P2 /\ P3 /\ P4 /\ P5 /\ P6) \/
  (P1 /\ ~ P2 /\ P3 /\ P4 /\ P5 /\ P6) \/
  (P1 /\ P2 /\ ~ P3 /\ P4 /\ P5 /\ P6) \/
  (P1 /\ P2 /\ P3 /\ ~ P4 /\ P5 /\ P6) \/
  (P1 /\ P2 /\ P3 /\ P4 /\ ~ P5 /\ P6) \/
  (P1 /\ P2 /\ P3 /\ P4 /\ P5 /\ ~ P6).

(** ** The students table *)

(** The columns of [students] other than the key [student_id].
    [prediction_date] is the reading of [CURRENT_TIMESTAMP], in seconds. *)
Record student := {
  school_satisfaction : spec_float;
  attendance_rate : spec_float;
  failed_courses : Z;
  commute_time : Z;
  disciplinary_incidents : Z;
  homework_completion : spec_float;
  family_income : string;
  promotion_status : string;
  prediction_date : Z
}.

(** [student_id INTEGER PRIMARY KEY]: at most one row per key. *)
Abbreviation table := (gmap Z student).

(** [initialize_database]: [CREATE TABLE IF NOT EXISTS]. A file that has the
    table keeps its rows; a new file gets the table with no row. *)
Definition initialize_database (file : option table) : table := default ∅ file.

(** ** The SQLite calls of a [try] block *)

Inductive sqlite_call := Connect | Execute | Commit | Close.

#[global] Instance sqlite_call_eq_dec : EqDecision sqlite_call.
Proof. solve_decision. Defined.

(** What an accessor does not control: the clock that [CURRENT_TIMESTAMP]
    reads and the call that raises an exception, if one does. *)
Record world := { now : Z; fault : option sqlite_call }.

(** A [try] block that writes. [file] is the committed table, [txn] the table
    as the open connection sees it. [connect] opens on the committed rows,
    [execute] runs the statement inside the transaction, [commit] makes the
    transaction the committed table, [close] drops the connection. The call
    that raises ends the block in the [except] branch, which returns [False];
    rows that were not committed are lost. The end of the block returns
    [True]. *)
Fixpoint run_calls (fault : option sqlite_call) (stmt : table -> table)
    (calls : list sqlite_call) (file txn : table) : bool * table :=
  match calls with
  | [] => (true, file)
  | c :: rest =>
      if bool_decide (fault = Some c) then (false, file)
      else match c with
           | Connect => run_calls fault stmt rest file file
           | Execute => run_calls fault stmt rest file (stmt txn)
           | Commit => run_calls fault stmt rest txn txn
           | Close => run_calls fault stmt rest file file
           end
  end.

(** The calls of [insert_student_data] and of [delete_student], in order. *)
Definition write_block : list sqlite_call := [Connect; Execute; Commit; Close].

(** Whether one of the calls of a block raises. *)
Definition raises_in (calls : list sqlite_call) (fault : option sqlite_call) : bool :=
  match fault with
  | Some c => bool_decide (c ∈ calls)
  | None => false
  end.

(** ** The accessors *)

(** [INSERT OR REPLACE INTO students (student_id, ..., promotion_status)]:
    the row with the same key, if there is one, is removed and the new row is
    inserted. [prediction_date] is not among the listed columns: it takes its
    default, [CURRENT_TIMESTAMP]. *)
Definition insert_or_replace (student_id : Z) (r : student) (t : table) : table :=
  <[student_id := r]> (delete student_id t).

(** The row that the statement binds: the nine values passed to the function
    and the default of the column that is left out. *)
Definition new_row (w : world) (satisfaction attendance : spec_float)
    (failed commute disciplinary : Z) (homework : spec_float)
    (income status : string) : student :=
  {| school_satisfaction := satisfaction;
     attendance_rate := attendance;
     failed_courses := failed;
     commute_time := commute;
     disciplinary_incidents := disciplinary;
     homework_completion := homework;
     family_income := income;
     promotion_status := status;
     prediction_date := now w |}.

Definition insert_student_data (w : world) (db : table) (student_id : Z)
    (satisfaction attendance : spec_float) (failed commute disciplinary : Z)
    (homework : spec_float) (income status : string) : bool * table :=
  run_calls (fault w)
    (insert_or_replace student_id
       (new_row w satisfaction attendance failed commute disciplinary homework
          income status))
    write_block db db.

(** [DELETE FROM students WHERE student_id = ?]. *)
Definition delete_student (w : world) (db : table) (student_id : Z) : bool * table :=
  run_calls (fault w) (delete student_id) write_block db db.

(** A pandas [DataFrame]: its column labels and its rows. A row of the
    result of [SELECT *] is the key with the other columns. *)
Record DataFrame := { columns : list string; records : list (Z * student) }.

(** [pd.DataFrame()]: no column and no row. *)
Definition pd_DataFrame : DataFrame := {| columns := []; records := [] |}.

(** [len(df)] and [df.empty] (an axis of length zero). *)
Definition df_len (df : DataFrame) : nat := length (records df).
Definition df_empty (df : DataFrame) : bool :=
  (length (columns df) =? 0)%nat || (length (records df) =? 0)%nat.

Definition students_columns : list string :=
  ["student_id"; "school_satisfaction"; "attendance_rate"; "failed_courses";
   "commute_time"; "disciplinary_incidents"; "homework_completion";
   "family_income"; "promotion_status"; "prediction_date"].

(** [ORDER BY prediction_date DESC]: a row comes before the rows that are not
    newer. SQL leaves the order of rows of equal date open; here it is the
    order that the scan and the sort give. *)
Definition newest_first (x y : Z * student) : Prop :=
  prediction_date y.2 <= prediction_date x.2.

#[global] Instance newest_first_dec : RelDecision newest_first.
Proof. intros x y. unfold newest_first. apply _. Defined.

Definition read_sql_query (db : table) : DataFrame :=
  {| columns := students_columns;
     records := merge_sort newest_first (map_to_list db) |}.

(** [get_all_students]: connect, query, close; an exception in any of them
    is caught and [pd.DataFrame()] is returned. *)
Definition get_all_students (w : world) (db : table) : DataFrame :=
  if raises_in [Connect; Execute; Close] (fault w) then pd_DataFrame
  else read_sql_query db.

(** The rows of a frame that have a given [student_id]. *)
Definition rows_of (student_id : Z) (df : DataFrame) : list (Z * student) :=
  filter (λ x, x.1 = student_id) (records df).

(** ** The handlers of the pages *)

(** The widgets of the "Predict Dropout" page. *)
Record form := {
  in_student_id : Z;
  in_satisfaction : spec_float;
  in_attendance : spec_float;
  in_failed_courses : Z;
  in_commute : Z;
  in_disciplinary : Z;
  in_homework : spec_float;
  in_family_income : string
}.

Definition rule_of_form (f : form) : string :=
  predict_promotion (in_satisfaction f) (in_attendance f) (in_failed_courses f)
    (in_commute f) (in_disciplinary f) (in_homework f) (in_family_income f).

(** The "Predict & Save" button: the label is computed, then stored with the
    inputs it was computed from. The label is shown when the insertion
    returned [True]. *)
Definition predict_and_save (w : world) (db : table) (f : form) : option string * table :=
  let status := rule_of_form f in
  let '(saved, db') :=
    insert_student_data w db (in_student_id f) (in_satisfaction f)
      (in_attendance f) (in_failed_courses f) (in_commute f)
      (in_disciplinary f) (in_homework f) (in_family_income f) status in
  (if saved then Some status else None, db').

(** The "Delete" button of the "View Database" page. The page first lists the
    students and draws the button only when the frame is not empty. *)
Definition view_database_delete (w_list w_delete : world) (db : table)
    (delete_id : Z) : table :=
  if df_empty (get_all_students w_list db) then db
  else (delete_student w_delete db delete_id).2.

(** One run of the script: [initialize_database()], then the page. Pages that
    only draw call nothing but [get_all_students]. *)
Inductive interaction :=
  | Visit
  | PredictAndSave (w : world) (f : form)
  | Delete (w_list w_delete : world) (delete_id : Z).

Definition script_run (i : interaction) (file : option table) : table :=
  let db := initialize_database file in
  match i with
  | Visit => db
  | PredictAndSave w f => (predict_and_save w db f).2
  | Delete w_list w_delete delete_id => view_database_delete w_list w_delete db delete_id
  end.

(** The tables that the application can produce from a new file. *)
Inductive reachable : table -> Prop :=
  | reachable_first_run (i : interaction) : reachable (script_run i None)
  | reachable_rerun (i : interaction) (db : table) :
      reachable db -> reachable (script_run i (Some db)).

(** The label of a row is the rule applied to the other columns of the row. *)
Definition consistent (r : student) : Prop :=
  promotion_status r =
  predict_promotion (school_satisfaction r) (attendance_rate r) (failed_courses r)
    (commute_time r) (disciplinary_incidents r) (homework_completion r)
    (family_income r).

Definition store_consistent (db : table) : Prop :=
  ∀ (student_id : Z) (r : student), db !! student_id = Some r -> consistent r.

(** ** Sample inputs

    Two worlds where no call raises, a minute apart, one where the statement
    raises, and a filled form. *)
Definition calm : world := {| now := 1700000000; fault := None |}.
Definition later : world := {| now := 1700000060; fault := None |}.
Definition broken : world := {| now := 1700000000; fault := Some Execute |}.

Definition sample_form : form :=
  {| in_student_id := 7;
     in_satisfaction := PyFloat.of_int 4;
     in_attendance := PyFloat.of_int 85;
     in_failed_courses := 0;
     in_commute := 20;
     in_disciplinary := 0;
     in_homework := PyFloat.of_int 90;
     in_family_income := "low" |}.

Definition sample_row : student :=
  new_row calm (in_satisfaction sample_form) (in_attendance sample_form)
    (in_failed_courses sample_form) (in_commute sample_form)
    (in_disciplinary sample_form) (in_homework sample_form)
    (in_family_income sample_form) (rule_of_form sample_form).

Definition sample_table : table := <[7 := sample_row]> ∅.

(** The same student a minute later, with three failed courses. *)
Definition sample_row_again : student :=
  new_row later (PyFloat.of_int 4) (PyFloat.of_int 85) 3 20 0 (PyFloat.of_int 90)
    "low" At_Risk.

Definition sample_table_again : table := <[7 := sample_row_again]> ∅.

(** A table of two students; student 9 was saved a minute after student 7. *)
Definition sample_table_two : table :=
  <[9 := sample_row_again]> (<[7 := sample_row]> ∅).

(** ** The texts of the "Predict Dropout" page

    After a submission that was saved the page draws a banner, [st.success]
    for "Promoted" and [st.error] otherwise, and one line per factor with a
    check mark or a cross. The number that each line prints before its mark
    is left out. *)

Inductive mark := Tick | Cross.
Inductive banner_kind := Success | Error.

Definition contributing_factors (f : form) : list (string * mark) :=
  [("School Satisfaction", if PyFloat.gt_int (in_satisfaction f) 3 then Tick else Cross);
   ("Attendance Rate", if PyFloat.gt_int (in_attendance f) 70 then Tick else Cross);
   ("Failed Courses", if in_failed_courses f <=? 2 then Tick else Cross);
   ("Commute Time", if in_commute f <=? 40 then Tick else Cross);
   ("Disciplinary Cases", if in_disciplinary f <=? 2 then Tick else Cross);
   ("Homework Completion", if PyFloat.gt_int (in_homework f) 80 then Tick else Cross)].

Record prediction_display := {
  banner : banner_kind;
  banner_student : Z;
  banner_status : string;
  factors : list (string * mark)
}.

(** What the page draws under the button: nothing when the insertion
    returned [False]. *)
Definition predict_and_save_display (w : world) (db : table) (f : form)
    : option prediction_display :=
  match (predict_and_save w db f).1 with
  | Some status =>
      Some {| banner := if decide (status = "Promoted") then Success else Error;
              banner_student := in_student_id f;
              banner_status := status;
              factors := contributing_factors f |}
  | None => None
  end.

(** ** The widgets of the "Predict Dropout" page

    [number_input] and [slider] return a value between their bounds,
    [selectbox] one of its options. *)
Definition widgets_allow (f : form) : Prop :=
  1 <= in_student_id f /\
  SFleb (PyFloat.of_int 1) (in_satisfaction f) = true /\
  SFleb (in_satisfaction f) (PyFloat.of_int 5) = true /\
  SFleb (PyFloat.of_int 0) (in_attendance f) = true /\
  SFleb (in_attendance f) (PyFloat.of_int 100) = true /\
  0 <= in_failed_courses f <= 10 /\
  1 <= in_commute f <= 120 /\
  0 <= in_disciplinary f <= 10 /\
  SFleb (PyFloat.of_int 0) (in_homework f) = true /\
  SFleb (in_homework f) (PyFloat.of_int 100) = true /\
  in_family_income f ∈ ["low"; "medium"; "high"].

(** The same bounds on a stored row. *)
Definition within_widgets (student_id : Z) (r : student) : Prop :=
  1 <= student_id /\
  SFleb (PyFloat.of_int 1) (school_satisfaction r) = true /\
  SFleb (school_satisfaction r) (PyFloat.of_int 5) = true /\
  SFleb (PyFloat.of_int 0) (attendance_rate r) = true /\
  SFleb (attendance_rate r) (PyFloat.of_int 100) = true /\
  0 <= failed_courses r <= 10 /\
  1 <= commute_time r <= 120 /\
  0 <= disciplinary_incidents r <= 10 /\
  SFleb (PyFloat.of_int 0) (homework_completion r) = true /\
  SFleb (homework_completion r) (PyFloat.of_int 100) = true /\
  family_income r ∈ ["low"; "medium"; "high"].

(** The runs of the script in which every form comes from the widgets. *)
Definition from_widgets (i : interaction) : Prop :=
  match i with
  | PredictAndSave _ f => widgets_allow f
  | _ => True
  end.

Inductive reachable_by_widgets : table -> Prop :=
  | widgets_first_run (i : interaction) :
      from_widgets i -> reachable_by_widgets (script_run i None)
  | widgets_rerun (i : interaction) (db : table) :
      from_widgets i -> reachable_by_widgets db ->
      reachable_by_widgets (script_run i (Some db)).

(** ** Columns of a frame *)

(** [df[name]]: the values of a column; [None] stands for the [KeyError] of
    a frame that has no column of that name. *)
Definition df_column {A} (name : string) (value : student -> A) (df : DataFrame)
    : option (list A) :=
  if decide (name ∈ columns df) then Some ((λ x, value x.2) <$> records df)
  else None.

(** [df[df[name] == v]] and [df[df[name].isin(vs)]]: the rows whose column
    passes the test, under the same labels. *)
Definition df_select (name : string) (P : student -> Prop)
    `{∀ r, Decision (P r)} (df : DataFrame) : option DataFrame :=
  if decide (name ∈ columns df)
  then Some {| columns := columns df;
               records := filter (λ x, P x.2) (records df) |}
  else None.

(** [Series.unique()]: the values in the order of their first appearance. *)
Fixpoint unique_from (seen l : list string) : list string :=
  match l with
  | [] => []
  | x :: rest =>
      if decide (x ∈ seen) then unique_from seen rest
      else x :: unique_from (x :: seen) rest
  end.

Definition unique (l : list string) : list string := unique_from [] l.

(** [Series.value_counts()]: each value with the number of its occurrences,
    the most frequent first. *)
Definition occurrences (v : string) (l : list string) : nat :=
  length (filter (λ y, y = v) l).

Definition more_frequent (a b : string * nat) : Prop := (b.2 <= a.2)%nat.

#[global] Instance more_frequent_dec : RelDecision more_frequent.
Proof. intros a b. unfold more_frequent. apply _. Defined.

Definition value_counts (l : list string) : list (string * nat) :=
  merge_sort more_frequent ((λ v, (v, occurrences v l)) <$> unique l).

(** [st.multiselect(options=..., default=...)] with the options as default:
    the choice of the user, or every option when the widget was not
    touched. *)
Definition multiselect (options : list string) (choice : option (list string))
    : list string :=
  default options choice.

(** ** The pages that read the table *)

(** A page either stops on an exception that nothing catches, or tells that
    there is no record, or draws. *)
Inductive rendered (A : Type) :=
  | Crashed
  | NoRecords
  | Drawn (a : A).
Arguments Crashed {A}.
Arguments NoRecords {A}.
Arguments Drawn {A} a.

Definition or_crash {A} (o : option A) : rendered A :=
  match o with
  | Some a => Drawn a
  | None => Crashed
  end.

(** [len(df[df['promotion_status'] == label])]. *)
Definition count_status (label : string) (df : DataFrame) : option nat :=
  df_len <$> df_select "promotion_status" (λ r, promotion_status r = label) df.

(** "Home": the total is the length of a first listing; the two other
    metrics come from a second listing and are drawn when it is not empty. *)
Record home_metrics := {
  total_students : nat;
  at_risk_students : option nat;
  promoted_students : option nat
}.

Definition home_page (w_total w_df : world) (db : table) : rendered home_metrics :=
  let total := df_len (get_all_students w_total db) in
  let df := get_all_students w_df db in
  if df_empty df
  then Drawn {| total_students := total;
                at_risk_students := None;
                promoted_students := None |}
  else or_crash (
    at_risk ← count_status At_Risk df;
    promoted ← count_status Promoted df;
    Some {| total_students := total;
            at_risk_students := Some at_risk;
            promoted_students := Some promoted |}).

(** "View Database", down to the table that is drawn. The two averages are
    left as the columns they are taken of. *)
Record database_view := {
  total_records : nat;
  attendance_rates : list spec_float;
  at_risk_records : nat;
  satisfactions : list spec_float;
  status_options : list string;
  income_options : list string;
  filtered_df : DataFrame
}.

(** [df[df['promotion_status'].isin(status_filter) &
       df['family_income'].isin(income_filter)]]. *)
Definition df_filter (status_filter income_filter : list string) (df : DataFrame)
    : option DataFrame :=
  if decide ("promotion_status" ∈ columns df ∧ "family_income" ∈ columns df)
  then Some {| columns := columns df;
               records :=
                 filter (λ x, promotion_status x.2 ∈ status_filter ∧
                              family_income x.2 ∈ income_filter) (records df) |}
  else None.

Definition view_database_page (w : world) (db : table)
    (status_choice income_choice : option (list string)) : rendered database_view :=
  let df := get_all_students w db in
  if df_empty df then NoRecords
  else or_crash (
    attendance ← df_column "attendance_rate" attendance_rate df;
    at_risk ← count_status At_Risk df;
    satisfaction ← df_column "school_satisfaction" school_satisfaction df;
    statuses ← df_column "promotion_status" promotion_status df;
    incomes ← df_column "family_income" family_income df;
    let status_filter := multiselect (unique statuses) status_choice in
    let income_filter := multiselect (unique incomes) income_choice in
    shown ← df_filter status_filter income_filter df;
    Some {| total_records := df_len df;
            attendance_rates := attendance;
            at_risk_records := at_risk;
            satisfactions := satisfaction;
            status_options := unique statuses;
            income_options := unique incomes;
            filtered_df := shown |}).

(** "Analytics": the two counts, and the columns of the scatter plot and of
    the histogram. The table of the averages by status reads four columns;
    the averages are left out. *)
Record analytics_view := {
  status_counts : list (string * nat);
  income_counts : list (string * nat);
  scatter_points : list (spec_float * spec_float * string);
  histogram_values : list (Z * string)
}.

Definition analytics_page (w : world) (db : table) : rendered analytics_view :=
  let df := get_all_students w db in
  if df_empty df then NoRecords
  else or_crash (
    statuses ← df_column "promotion_status" promotion_status df;
    incomes ← df_column "family_income" family_income df;
    points ← df_column "attendance_rate"
               (λ r, (attendance_rate r, school_satisfaction r, promotion_status r)) df;
    _ ← df_column "school_satisfaction" school_satisfaction df;
    bars ← df_column "failed_courses" (λ r, (failed_courses r, promotion_status r)) df;
    _ ← df_column "homework_completion" homework_completion df;
    Some {| status_counts := value_counts statuses;
            income_counts := value_counts incomes;
            scatter_points := points;
            histogram_values := bars |}).

(** ** The script around a page

    Every run of the script calls [initialize_database()] before it draws a
    page, outside any [try]: connect, execute, commit, close. The call that
    raises stops the run, and no page is drawn. *)
Definition initialize_database_or_raise (w : world) (file : option table)
    : option table :=
  if raises_in write_block (fault w) then None
  else Some (initialize_database file).

Definition home_script (w_init w_total w_df : world) (file : option table)
    : rendered home_metrics :=
  match initialize_database_or_raise w_init file with
  | None => Crashed
  | Some db => home_page w_total w_df db
  end.

Definition view_database_script (w_init w : world) (file : option table)
    (status_choice income_choice : option (list string)) : rendered database_view :=
  match initialize_database_or_raise w_init file with
  | None => Crashed
  | Some db => view_database_page w db status_choice income_choice
  end.

Definition analytics_script (w_init w : world) (file : option table)
    : rendered analytics_view :=
  match initialize_database_or_raise w_init file with
  | None => Crashed
  | Some db => analytics_page w db
  end.

(** A row holds the nine values of one call of [insert_student_data]. *)
Definition carries (r : student) (satisfaction attendance : spec_float)
    (failed commute disciplinary : Z) (homework : spec_float)
    (income status : string) : Prop :=
  school_satisfaction r = satisfaction /\
  attendance_rate r = attendance /\
  failed_courses r = failed /\
  commute_time r = commute /\
  disciplinary_incidents r = disciplinary /\
  homework_completion r = homework /\
  family_income r = income /\
  promotion_status r = status.

(** ** More sample inputs *)

(** The form as the widgets show it first. *)
Definition default_form : form :=
  {| in_student_id := 1;
     in_satisfaction := PyFloat.of_int 3;
     in_attendance := PyFloat.of_int 75;
     in_failed_courses := 0;
     in_commute := 30;
     in_disciplinary := 0;
     in_homework := PyFloat.of_int 85;
     in_family_income := "low" |}.

(** ** Comparison of binary64 values is comparison of the numbers they denote *)

Section FloatOrder.
Import PyFloat.

Lemma digits2_pos_bounds (m : positive) :
  2 ^ (Z.pos (digits2_pos m) - 1) <= Z.pos m < 2 ^ Z.pos (digits2_pos m).
Proof.
  induction m as [m IH | m IH | ]; cbn [digits2_pos].
  - rewrite Pos2Z.inj_succ, (Pos2Z.inj_xI m).
    replace (Z.succ (Z.pos (digits2_pos m)) - 1) with (Z.succ (Z.pos (digits2_pos m) - 1)) by lia.
    rewrite !Z.pow_succ_r by lia. lia.
  - rewrite Pos2Z.inj_succ, (Pos2Z.inj_xO m).
    replace (Z.succ (Z.pos (digits2_pos m)) - 1) with (Z.succ (Z.pos (digits2_pos m) - 1)) by lia.
    rewrite !Z.pow_succ_r by lia. lia.
  - cbn. lia.
Qed.

(** What the canonical form gives: the exponent is at least [emin], the
    mantissa has at most 53 bits, and it has exactly 53 bits unless the
    exponent is [emin] (a subnormal number). *)
Lemma bounded_inv (m : positive) (e : Z) :
  bounded prec emax m e = true ->
  -1074 <= e /\ Z.pos m < 2 ^ 53 /\ (e = -1074 \/ 2 ^ 52 <= Z.pos m).
Proof.
  unfold bounded, canonical_mantissa, fexp, SpecFloat.emin, prec, emax.
  intros [Hc _]%andb_true_iff. apply Z.eqb_eq in Hc.
  pose proof (digits2_pos_bounds m) as [Hlo Hhi].
  set (d := Z.pos (digits2_pos m)) in *.
  assert (Hd : d <= 53 /\ -1074 <= e /\ (e = -1074 \/ d = 53)) by lia.
  destruct Hd as (Hd & He & Hn). split; [exact He|]. split.
  - eapply Z.lt_le_trans; [exact Hhi|]. apply Z.pow_le_mono_r; lia.
  - destruct Hn as [->| ->]; [now left|right]. exact Hlo.
Qed.

Lemma scaled_lt_of_exponent_lt (m1 m2 : positive) (e1 e2 : Z) :
  bounded prec emax m1 e1 = true -> bounded prec emax m2 e2 = true ->
  e1 < e2 -> scaled m1 e1 < scaled m2 e2.
Proof.
  intros (He1 & Hm1 & _)%bounded_inv (He2 & _ & Hn2)%bounded_inv Hlt.
  destruct Hn2 as [->|Hn2]; [lia|]. unfold scaled.
  assert (Hp : 0 < 2 ^ (e1 + 1074)) by (apply Z.pow_pos_nonneg; lia).
  assert (Hq : 2 * 2 ^ (e1 + 1074) <= 2 ^ (e2 + 1074)).
  { rewrite <- Z.pow_succ_r by lia. apply Z.pow_le_mono_r; lia. }
  change (2 ^ 53) with (2 ^ 52 * 2) in Hm1.
  assert (Z.pos m1 * 2 ^ (e1 + 1074) < 2 ^ 52 * 2 * 2 ^ (e1 + 1074)) by nia.
  assert (2 ^ 52 * (2 * 2 ^ (e1 + 1074)) <= 2 ^ 52 * 2 ^ (e2 + 1074)) by nia.
  assert (2 ^ 52 * 2 ^ (e2 + 1074) <= Z.pos m2 * 2 ^ (e2 + 1074)).
  { apply Z.mul_le_mono_nonneg_r; lia. }
  lia.
Qed.

Lemma SFcompare_scaled (m1 m2 : positive) (e1 e2 : Z) :
  bounded prec emax m1 e1 = true -> bounded prec emax m2 e2 = true ->
  SFcompare (S754_finite false m1 e1) (S754_finite false m2 e2)
  = Some (scaled m1 e1 ?= scaled m2 e2).
Proof.
  intros H1 H2. cbn [SFcompare]. f_equal.
  destruct (Z.compare_spec e1 e2) as [-> | Hlt | Hgt].
  - change (Pos.compare_cont Eq m1 m2) with (Z.pos m1 ?= Z.pos m2).
    unfold scaled. apply bounded_inv in H2 as (He2 & _).
    assert (Hp : 0 < 2 ^ (e2 + 1074)) by (apply Z.pow_pos_nonneg; lia).
    destruct (Z.compare_spec (Z.pos m1) (Z.pos m2)) as [Heq | Hl | Hg]; symmetry.
    + apply Z.compare_eq_iff. now rewrite Heq.
    + apply Z.compare_lt_iff. now apply Z.mul_lt_mono_pos_r.
    + apply Z.compare_gt_iff. now apply Z.mul_lt_mono_pos_r.
  - symmetry. apply Z.compare_lt_iff. now apply scaled_lt_of_exponent_lt.
  - symmetry. apply Z.compare_gt_iff. now apply scaled_lt_of_exponent_lt.
Qed.

(** An integer against a positive finite float, both in units of [2^emin]. *)
Lemma exceeds_scaled (n : Z) (m : positive) (e : Z) :
  -1074 <= e ->
  exceeds (S754_finite false m e) n <-> n * 2 ^ 1074 < scaled m e.
Proof.
  intros He. unfold exceeds, scaled, signed.
  destruct (Z.leb_spec 0 e) as [Hpos | Hneg].
  - rewrite Z.pow_add_r by lia. rewrite Z.mul_assoc.
    assert (0 < 2 ^ 1074) by (apply Z.pow_pos_nonneg; lia).
    split; intros Hlt.
    + now apply Z.mul_lt_mono_pos_r.
    + now apply Z.mul_lt_mono_pos_r in Hlt.
  - replace 1074 with (- e + (e + 1074)) at 1 by lia.
    rewrite Z.pow_add_r by lia. rewrite Z.mul_assoc.
    assert (0 < 2 ^ (e + 1074)) by (apply Z.pow_pos_nonneg; lia).
    split; intros Hlt.
    + now apply Z.mul_lt_mono_pos_r.
    + now apply Z.mul_lt_mono_pos_r in Hlt.
Qed.

(** The Python comparison [x > n] decides [exceeds x n], for every binary64
    value [x] (NaN and the infinities included) and every literal that
    converts exactly. *)
Lemma gt_int_exceeds (x : spec_float) (n : Z) :
  exact_literal n = true -> is_float x ->
  gt_int x n = true <-> exceeds x n.
Proof.
  unfold exact_literal, gt_int, is_float, SFltb.
  destruct (of_int n) as [| | |[|] m0 e0] eqn:Hlit; try discriminate.
  intros Hex Hx. apply andb_true_iff in Hex as [Hex Hval].
  apply andb_true_iff in Hex as [Hex He0]. apply andb_true_iff in Hex as [Hn Hb0].
  apply Z.ltb_lt in Hn. apply Z.leb_le in He0. apply Z.eqb_eq in Hval.
  destruct x as [s | s | | s m e].
  - cbn. split; [discriminate | lia].
  - cbn. destruct s; split; congruence.
  - cbn. split; [discriminate | tauto].
  - cbn [valid_binary] in Hx. destruct s.
    + cbn. split; [discriminate|]. intros Hlt. exfalso.
      destruct (Z.leb_spec 0 e) as [Hpos | Hneg]; cbn in Hlt.
      * assert (0 < 2 ^ e) by (apply Z.pow_pos_nonneg; lia). nia.
      * assert (0 < 2 ^ (- e)) by (apply Z.pow_pos_nonneg; lia). nia.
    + rewrite SFcompare_scaled by assumption.
      pose proof (bounded_inv _ _ Hx) as (He & _).
      pose proof (bounded_inv _ _ Hb0) as (He0' & _).
      rewrite exceeds_scaled by exact He.
      assert (Hn' : n * 2 ^ 1074 = scaled m0 e0).
      { unfold scaled. rewrite <- Hval.
        replace 1074 with (- e0 + (e0 + 1074)) at 1 by lia.
        rewrite Z.pow_add_r by lia. ring. }
      rewrite Hn'. rewrite <- Z.compare_lt_iff.
      destruct (scaled m0 e0 ?= scaled m e); split; congruence.
Qed.

End FloatOrder.

(** ** Correctness of the classification rule *)

Section Rule.
Import PyFloat.

Lemma gt_int_reflect (x : spec_float) (n : Z) :
  exact_literal n = true -> is_float x -> reflect (exceeds x n) (gt_int x n).
Proof.
  intros Hn Hx. apply iff_reflect. symmetry. now apply gt_int_exceeds.
Qed.

Lemma Promoted_neq_At_Risk : Promoted <> At_Risk.
Proof. discriminate. Qed.

Lemma one_clause_fails_not_all (s a : spec_float) (f c d : Z) (h : spec_float) :
  one_clause_fails s a f c d h -> ~ all_clauses s a f c d h.
Proof. unfold one_clause_fails, all_clauses. tauto. Qed.

(** C1. [predict_promotion] returns "Promoted" exactly when satisfaction > 3,
    attendance > 70, failed_courses <= 2, commute <= 40, disciplinary <= 2
    and homework > 80 all hold, the comparisons being those of the numbers
    that the binary64 arguments denote; on every other input, and so on
    every input where exactly one clause fails, it returns
    "At Risk of Dropout". *)
Theorem predict_promotion_iff_all_clauses
    (s a : spec_float) (f c d : Z) (h : spec_float) (i : string) :
  is_float s -> is_float a -> is_float h ->
  (predict_promotion s a f c d h i = Promoted <-> all_clauses s a f c d h) /\
  (~ all_clauses s a f c d h -> predict_promotion s a f c d h i = At_Risk) /\
  (one_clause_fails s a f c d h -> predict_promotion s a f c d h i = At_Risk).
Proof.
  intros Hs Ha Hh.
  assert (Hall : reflect (all_clauses s a f c d h)
                   (gt_int s 3 && gt_int a 70 && (f <=? 2) && (c <=? 40) &&
                    (d <=? 2) && gt_int h 80)).
  { unfold all_clauses.
    destruct (gt_int_reflect s 3 eq_refl Hs); [|constructor; tauto].
    destruct (gt_int_reflect a 70 eq_refl Ha); [|constructor; tauto].
    destruct (Z.leb_spec0 f 2); [|constructor; tauto].
    destruct (Z.leb_spec0 c 40); [|constructor; tauto].
    destruct (Z.leb_spec0 d 2); [|constructor; tauto].
    destruct (gt_int_reflect h 80 eq_refl Hh); constructor; tauto. }
  unfold predict_promotion.
  destruct Hall as [Hyes | Hno].
  - split; [tauto|]. split; [tauto|].
    intros Hone. now apply one_clause_fails_not_all in Hone.
  - split; [|tauto]. split; [|tauto].
    intros Heq. symmetry in Heq. now apply Promoted_neq_At_Risk in Heq.
Qed.

Lemma predict_promotion_iff_all_clauses_witness :
  is_float (of_int 4) /\ is_float (of_int 85) /\ is_float (of_int 90) /\
  (predict_promotion (of_int 4) (of_int 85) 0 20 0 (of_int 90) "low" = Promoted <->
   all_clauses (of_int 4) (of_int 85) 0 20 0 (of_int 90)).
Proof.
  split; [reflexivity|]. split; [reflexivity|]. split; [reflexivity|].
  apply (predict_promotion_iff_all_clauses
           (of_int 4) (of_int 85) 0 20 0 (of_int 90) "low"); reflexivity.
Defined.

(** C4. Two calls of [predict_promotion] that differ only in [income]
    return the same label. *)
Theorem predict_promotion_ignores_income
    (s a : spec_float) (f c d : Z) (h : spec_float) (i1 i2 : string) :
  predict_promotion s a f c d h i1 = predict_promotion s a f c d h i2.
Proof. reflexivity. Qed.

(** The examples of the specification: 4.0, 85, 0, 20, 0, 90 is promoted;
    2.5 for the satisfaction, or 3 failed courses, is at risk. *)
Example predict_promotion_example_promoted :
  predict_promotion (of_int 4) (of_int 85) 0 20 0 (of_int 90) "low" = Promoted.
Proof. reflexivity. Qed.

Example predict_promotion_example_satisfaction :
  is_float two_and_a_half /\
  ~ exceeds two_and_a_half 3 /\
  predict_promotion two_and_a_half (of_int 85) 0 20 0 (of_int 90) "high" = At_Risk.
Proof. split; [reflexivity|]. split; [cbn; lia | reflexivity]. Qed.

Example predict_promotion_example_failed_courses :
  predict_promotion (of_int 4) (of_int 85) 3 20 0 (of_int 90) "medium" = At_Risk.
Proof. reflexivity. Qed.

End Rule.

(** ** The [try] blocks *)

Section TryBlocks.
Implicit Types (db : table) (stmt : table -> table) (w : world).

(** The three ways a writing block can end. *)
Lemma run_calls_write (fault : option sqlite_call) stmt db :
  run_calls fault stmt write_block db db =
  match fault with
  | None => (true, stmt db)
  | Some Close => (false, stmt db)
  | Some _ => (false, db)
  end.
Proof. destruct fault as [[]|]; reflexivity. Qed.

Lemma run_calls_true (fault : option sqlite_call) stmt db db' :
  run_calls fault stmt write_block db db = (true, db') ->
  fault = None /\ db' = stmt db.
Proof.
  rewrite run_calls_write. destruct fault as [[]|]; intros [= <-]; auto; discriminate.
Qed.

Lemma run_calls_cases (fault : option sqlite_call) stmt db :
  (run_calls fault stmt write_block db db).2 = db \/
  (run_calls fault stmt write_block db db).2 = stmt db.
Proof. rewrite run_calls_write. destruct fault as [[]|]; cbn; auto. Qed.

Lemma insert_or_replace_insert (student_id : Z) (r : student) db :
  insert_or_replace student_id r db = <[student_id := r]> db.
Proof. unfold insert_or_replace. apply insert_delete_eq. Qed.

Lemma insert_student_data_true w db (student_id : Z)
    (s a : spec_float) (f c d : Z) (h : spec_float) (inc status : string) db' :
  insert_student_data w db student_id s a f c d h inc status = (true, db') ->
  fault w = None /\ db' = <[student_id := new_row w s a f c d h inc status]> db.
Proof.
  unfold insert_student_data. intros [Hf ->]%run_calls_true.
  split; [exact Hf | apply insert_or_replace_insert].
Qed.

Lemma insert_student_data_no_fault w db (student_id : Z)
    (s a : spec_float) (f c d : Z) (h : spec_float) (inc status : string) :
  fault w = None ->
  insert_student_data w db student_id s a f c d h inc status =
  (true, <[student_id := new_row w s a f c d h inc status]> db).
Proof.
  intros Hf. unfold insert_student_data.
  rewrite run_calls_write, Hf. now rewrite insert_or_replace_insert.
Qed.

Lemma get_all_students_no_raise w db :
  raises_in [Connect; Execute; Close] (fault w) = false ->
  get_all_students w db = read_sql_query db.
Proof. unfold get_all_students. now intros ->. Qed.

End TryBlocks.

(** ** Rows of a given key *)

#[global] Instance newest_first_total : Total newest_first.
Proof. intros x y. unfold newest_first. lia. Qed.

#[global] Instance newest_first_trans : Transitive newest_first.
Proof. intros x y z. unfold newest_first. lia. Qed.

Section Rows.
Implicit Types (db : table) (r : student).

Lemma records_read_sql_query db : records (read_sql_query db) ≡ₚ map_to_list db.
Proof. apply merge_sort_Permutation. Qed.

Lemma filter_none {A} (P : A -> Prop) `{∀ x, Decision (P x)} (l : list A) :
  (∀ x, x ∈ l -> ¬ P x) -> filter P l = [].
Proof.
  induction l as [|x l IH]; intros Hl; [reflexivity|].
  rewrite filter_cons_False by (apply Hl; left).
  apply IH. intros y Hy. apply Hl. now right.
Qed.

(** The table holds one row of key [student_id]: the one that [!!] finds. *)
Lemma filter_key_map_to_list db (student_id : Z) r :
  db !! student_id = Some r ->
  filter (λ x, x.1 = student_id) (map_to_list db) = [(student_id, r)].
Proof.
  intros Hr. rewrite <- (insert_delete_id db student_id r Hr).
  apply Permutation_singleton_r.
  rewrite map_to_list_insert by apply lookup_delete_eq.
  rewrite filter_cons_True by reflexivity.
  apply Permutation_cons; [reflexivity|].
  rewrite filter_none; [reflexivity|].
  intros [k v] Hin%elem_of_map_to_list Hk. cbn in Hk. subst k.
  rewrite lookup_delete_eq in Hin. discriminate.
Qed.

Lemma filter_key_map_to_list_None db (student_id : Z) :
  db !! student_id = None ->
  filter (λ x, x.1 = student_id) (map_to_list db) = [].
Proof.
  intros Hnone. apply filter_none.
  intros [k v] Hin%elem_of_map_to_list Hk. cbn in Hk. subst k. congruence.
Qed.

Lemma rows_of_read_sql_query db (student_id : Z) r :
  db !! student_id = Some r ->
  rows_of student_id (read_sql_query db) = [(student_id, r)].
Proof.
  intros Hr. unfold rows_of. apply Permutation_singleton_r.
  rewrite records_read_sql_query. now rewrite (filter_key_map_to_list _ _ _ Hr).
Qed.

End Rows.

(** ** The stored label agrees with the stored inputs *)

Section Consistency.
Implicit Types (db : table) (r : student) (w : world) (f : form).

Lemma store_consistent_empty : store_consistent ∅.
Proof. intros k r Hk. rewrite lookup_empty in Hk. discriminate. Qed.

Lemma store_consistent_insert db (k : Z) r :
  store_consistent db -> consistent r -> store_consistent (<[k := r]> db).
Proof.
  intros Hdb Hr k' r' Hk'. rewrite lookup_insert in Hk'.
  case_decide; [congruence | eauto].
Qed.

Lemma store_consistent_delete db (k : Z) :
  store_consistent db -> store_consistent (delete k db).
Proof.
  intros Hdb k' r' Hk'. rewrite lookup_delete in Hk'.
  case_decide; [discriminate | eauto].
Qed.

(** The row that the handler writes carries the label of its own inputs. *)
Lemma consistent_new_row w f :
  consistent (new_row w (in_satisfaction f) (in_attendance f)
                (in_failed_courses f) (in_commute f) (in_disciplinary f)
                (in_homework f) (in_family_income f) (rule_of_form f)).
Proof. reflexivity. Qed.

Lemma predict_and_save_consistent w db f :
  store_consistent db -> store_consistent (predict_and_save w db f).2.
Proof.
  intros Hdb. unfold predict_and_save.
  destruct (insert_student_data _ _ _ _ _ _ _ _ _ _ _) as [saved db'] eqn:Hins.
  cbn. replace db' with (saved, db').2 by reflexivity. rewrite <- Hins.
  unfold insert_student_data.
  destruct (run_calls_cases (fault w)
              (insert_or_replace (in_student_id f)
                 (new_row w (in_satisfaction f) (in_attendance f)
                    (in_failed_courses f) (in_commute f) (in_disciplinary f)
                    (in_homework f) (in_family_income f) (rule_of_form f))) db)
    as [-> | ->]; [exact Hdb|].
  rewrite insert_or_replace_insert.
  apply store_consistent_insert; [exact Hdb | apply consistent_new_row].
Qed.

Lemma delete_student_consistent w db (k : Z) :
  store_consistent db -> store_consistent (delete_student w db k).2.
Proof.
  intros Hdb. unfold delete_student.
  destruct (run_calls_cases (fault w) (delete k) db) as [-> | ->];
    [exact Hdb | now apply store_consistent_delete].
Qed.

Lemma initialize_database_consistent (file : option table) :
  (∀ db, file = Some db -> store_consistent db) ->
  store_consistent (initialize_database file).
Proof.
  destruct file as [db|]; cbn; intros H; [now apply H | apply store_consistent_empty].
Qed.

(** X16. When the handler has a label to show, the student is stored with
    what was entered. The label is the rule applied to the form; the row at
    the [student_id] of the form holds, column by column, the inputs of the
    form, that label and the clock of the call; the rows of the other
    students are what they were; and the next listing that does not raise
    has exactly one row of that student, this one. *)
Lemma predict_and_save_saved w db f (shown : string) db' :
  predict_and_save w db f = (Some shown, db') ->
  shown =
    predict_promotion (in_satisfaction f) (in_attendance f) (in_failed_courses f)
      (in_commute f) (in_disciplinary f) (in_homework f) (in_family_income f) /\
  (∃ r : student,
     db' !! in_student_id f = Some r /\
     school_satisfaction r = in_satisfaction f /\
     attendance_rate r = in_attendance f /\
     failed_courses r = in_failed_courses f /\
     commute_time r = in_commute f /\
     disciplinary_incidents r = in_disciplinary f /\
     homework_completion r = in_homework f /\
     family_income r = in_family_income f /\
     promotion_status r = shown /\
     prediction_date r = now w /\
     (∀ w', raises_in [Connect; Execute; Close] (fault w') = false ->
        rows_of (in_student_id f) (get_all_students w' db') = [(in_student_id f, r)])) /\
  (∀ other : Z, other <> in_student_id f -> db' !! other = db !! other).
Proof.
  unfold predict_and_save.
  destruct (insert_student_data _ _ _ _ _ _ _ _ _ _ _) as [[|] db1] eqn:Hins;
    intros [= <- <-]. split; [reflexivity|].
  apply insert_student_data_true in Hins as [_ ->]. split.
  - eexists. split; [apply lookup_insert_eq|].
    do 9 (split; [reflexivity|]).
    intros w' Hw'. rewrite get_all_students_no_raise by exact Hw'.
    apply rows_of_read_sql_query, lookup_insert_eq.
  - intros other Hne. now apply lookup_insert_ne.
Qed.

(** Every run of the script keeps the invariant. *)
Lemma script_run_consistent (i : interaction) (file : option table) :
  (∀ db, file = Some db -> store_consistent db) ->
  store_consistent (script_run i file).
Proof.
  intros Hfile%initialize_database_consistent. unfold script_run.
  destruct i as [| w f | wl wd k].
  - exact Hfile.
  - now apply predict_and_save_consistent.
  - unfold view_database_delete.
    destruct (df_empty _); [exact Hfile | now apply delete_student_consistent].
Qed.

(** C2. In every table that the application can reach from a new file, by
    submissions, deletions and page visits, whether or not a call to SQLite
    raises, the [promotion_status] of every row is the classification rule
    applied to the other columns of that row. *)
Theorem reachable_store_consistent db : reachable db -> store_consistent db.
Proof.
  induction 1 as [i | i db Hreach IH].
  - apply script_run_consistent. discriminate.
  - apply script_run_consistent. now intros db' [= <-].
Qed.

End Consistency.

Lemma reachable_store_consistent_witness :
  reachable (script_run (PredictAndSave calm sample_form) None) /\
  store_consistent (script_run (PredictAndSave calm sample_form) None).
Proof.
  split; [apply reachable_first_run|].
  apply (reachable_store_consistent
           (script_run (PredictAndSave calm sample_form) None)).
  apply reachable_first_run.
Defined.

(** ** Upsert *)

Section Upsert.
Implicit Types (db : table) (w : world) (s a h : spec_float) (f c d : Z)
  (inc status : string).

(** C3. When [insert_student_data] is given a record with the label that
    the rule derives from its inputs and returns [True], and the listing
    that follows does not raise, the frame has exactly one row of that
    [student_id]; its [promotion_status] is the rule applied to the inputs
    of the record. *)
Theorem upsert_then_list_all w w' db db' (student_id : Z) s a f c d h inc :
  insert_student_data w db student_id s a f c d h inc
    (predict_promotion s a f c d h inc) = (true, db') ->
  raises_in [Connect; Execute; Close] (fault w') = false ->
  ∃ r : student,
    rows_of student_id (get_all_students w' db') = [(student_id, r)] /\
    promotion_status r = predict_promotion s a f c d h inc /\
    r = new_row w s a f c d h inc (predict_promotion s a f c d h inc).
Proof.
  intros [_ ->]%insert_student_data_true Hlist.
  exists (new_row w s a f c d h inc (predict_promotion s a f c d h inc)).
  split; [|split; reflexivity].
  rewrite get_all_students_no_raise by exact Hlist.
  apply rows_of_read_sql_query, lookup_insert_eq.
Qed.

(** C5. Two upserts of the same [student_id] that both return [True] leave
    one row of that key, and the row is the second call's: column by column
    it holds the values passed to the second call, with the clock of the
    second call as its [prediction_date]; the table is what the second call
    alone would have left. *)
Theorem upsert_twice_keeps_second w1 w2 db db1 db2 (student_id : Z)
    s1 a1 f1 c1 d1 h1 inc1 status1 s2 a2 f2 c2 d2 h2 inc2 status2 :
  insert_student_data w1 db student_id s1 a1 f1 c1 d1 h1 inc1 status1 = (true, db1) ->
  insert_student_data w2 db1 student_id s2 a2 f2 c2 d2 h2 inc2 status2 = (true, db2) ->
  ∃ r : student,
    filter (λ x, x.1 = student_id) (map_to_list db2) = [(student_id, r)] /\
    db2 !! student_id = Some r /\
    school_satisfaction r = s2 /\
    attendance_rate r = a2 /\
    failed_courses r = f2 /\
    commute_time r = c2 /\
    disciplinary_incidents r = d2 /\
    homework_completion r = h2 /\
    family_income r = inc2 /\
    promotion_status r = status2 /\
    prediction_date r = now w2 /\
    db2 = (insert_student_data w2 db student_id s2 a2 f2 c2 d2 h2 inc2 status2).2.
Proof.
  intros [_ ->]%insert_student_data_true [Hf2 ->]%insert_student_data_true.
  exists (new_row w2 s2 a2 f2 c2 d2 h2 inc2 status2).
  split; [apply filter_key_map_to_list, lookup_insert_eq|].
  split; [apply lookup_insert_eq|].
  do 9 (split; [reflexivity|]).
  rewrite insert_student_data_no_fault by exact Hf2. cbn.
  apply insert_insert_eq.
Qed.

(** C8. An upsert that returns [True], or that changes the table at all,
    leaves at its key a row whose [prediction_date] is the reading of the
    clock at the write, whatever row was there before and whatever values
    were passed. *)
Theorem upsert_sets_prediction_date w db (student_id : Z)
    s a f c d h inc status :
  (insert_student_data w db student_id s a f c d h inc status).1 = true \/
  (insert_student_data w db student_id s a f c d h inc status).2 <> db ->
  ∃ r : student,
    (insert_student_data w db student_id s a f c d h inc status).2 !! student_id
      = Some r /\
    prediction_date r = now w.
Proof.
  unfold insert_student_data. rewrite run_calls_write, insert_or_replace_insert.
  intros Hwritten.
  exists (new_row w s a f c d h inc status). split; [|reflexivity].
  destruct (fault w) as [[]|]; cbn in *;
    solve [apply lookup_insert_eq | destruct Hwritten; [discriminate | congruence]].
Qed.

End Upsert.

Lemma upsert_then_list_all_witness :
  insert_student_data calm ∅ 7 (PyFloat.of_int 4) (PyFloat.of_int 85) 0 20 0
    (PyFloat.of_int 90) "low"
    (predict_promotion (PyFloat.of_int 4) (PyFloat.of_int 85) 0 20 0
       (PyFloat.of_int 90) "low") = (true, sample_table) /\
  raises_in [Connect; Execute; Close] (fault later) = false /\
  ∃ r : student,
    rows_of 7 (get_all_students later sample_table) = [(7, r)] /\
    promotion_status r = Promoted.
Proof.
  assert (Hins : insert_student_data calm ∅ 7 (PyFloat.of_int 4) (PyFloat.of_int 85)
                   0 20 0 (PyFloat.of_int 90) "low"
                   (predict_promotion (PyFloat.of_int 4) (PyFloat.of_int 85) 0 20 0
                      (PyFloat.of_int 90) "low") = (true, sample_table))
    by (vm_compute; reflexivity).
  split; [exact Hins|]. split; [reflexivity|].
  destruct (upsert_then_list_all calm later ∅ sample_table 7
              (PyFloat.of_int 4) (PyFloat.of_int 85) 0 20 0 (PyFloat.of_int 90)
              "low" Hins eq_refl) as (r & Hrows & Hstatus & _).
  exists r. split; [exact Hrows | exact Hstatus].
Defined.

Lemma upsert_twice_keeps_second_witness :
  insert_student_data calm ∅ 7 (PyFloat.of_int 4) (PyFloat.of_int 85) 0 20 0
    (PyFloat.of_int 90) "low" Promoted = (true, sample_table) /\
  insert_student_data later sample_table 7 (PyFloat.of_int 4) (PyFloat.of_int 85)
    3 20 0 (PyFloat.of_int 90) "low" At_Risk = (true, sample_table_again) /\
  ∃ r : student,
    filter (λ x, x.1 = 7) (map_to_list sample_table_again) = [(7, r)] /\
    failed_courses r = 3 /\
    promotion_status r = At_Risk /\
    prediction_date r = 1700000060.
Proof.
  assert (H1 : insert_student_data calm ∅ 7 (PyFloat.of_int 4) (PyFloat.of_int 85)
                 0 20 0 (PyFloat.of_int 90) "low" Promoted = (true, sample_table))
    by (vm_compute; reflexivity).
  assert (H2 : insert_student_data later sample_table 7 (PyFloat.of_int 4)
                 (PyFloat.of_int 85) 3 20 0 (PyFloat.of_int 90) "low" At_Risk
               = (true, sample_table_again))
    by (vm_compute; reflexivity).
  split; [exact H1|]. split; [exact H2|].
  destruct (upsert_twice_keeps_second calm later ∅ sample_table sample_table_again 7
              _ _ _ _ _ _ _ _ _ _ _ _ _ _ _ _ H1 H2)
    as (r & Hrows & _ & _ & _ & Hf & _ & _ & _ & _ & Hst & Hdate & _).
  exists r. split; [exact Hrows|]. split; [exact Hf|]. split; [exact Hst | exact Hdate].
Defined.

Lemma upsert_sets_prediction_date_witness :
  (insert_student_data later sample_table 7 (PyFloat.of_int 4) (PyFloat.of_int 85)
     3 20 0 (PyFloat.of_int 90) "low" At_Risk).1 = true /\
  sample_table !! 7 = Some sample_row /\
  prediction_date sample_row = 1700000000 /\
  ∃ r : student,
    (insert_student_data later sample_table 7 (PyFloat.of_int 4) (PyFloat.of_int 85)
       3 20 0 (PyFloat.of_int 90) "low" At_Risk).2 !! 7 = Some r /\
    prediction_date r = 1700000060.
Proof.
  split; [reflexivity|]. split; [reflexivity|]. split; [reflexivity|].
  apply (upsert_sets_prediction_date later sample_table 7 (PyFloat.of_int 4)
           (PyFloat.of_int 85) 3 20 0 (PyFloat.of_int 90) "low" At_Risk).
  left. reflexivity.
Defined.

(** ** Delete *)

Section Delete.
Implicit Types (db : table) (w : world).

(** C6. Deleting a [student_id] that the table does not hold leaves the
    table as it was, in every world, and returns [True] unless a call to
    SQLite raises: the missing key is not an error. *)
Theorem delete_student_missing db (student_id : Z) :
  db !! student_id = None ->
  (∀ w, (delete_student w db student_id).2 = db) /\
  (∀ w, fault w = None -> delete_student w db student_id = (true, db)).
Proof.
  intros Hnone. assert (Hdel : delete student_id db = db) by now apply delete_id.
  split; intros w.
  - unfold delete_student.
    destruct (run_calls_cases (fault w) (delete student_id) db) as [-> | ->];
      [reflexivity | exact Hdel].
  - intros Hf. unfold delete_student. rewrite run_calls_write, Hf.
    now rewrite Hdel.
Qed.

(** C10. [delete_student] removes no row but the one of the given key: in
    every world the rows of every other key are what they were, the table
    is a part of the old one, and it has lost at most one row. *)
Theorem delete_student_frame w db (student_id : Z) :
  (∀ other : Z, other <> student_id ->
     (delete_student w db student_id).2 !! other = db !! other) /\
  (delete_student w db student_id).2 ⊆ db /\
  (size db <= S (size (delete_student w db student_id).2))%nat.
Proof.
  unfold delete_student.
  destruct (run_calls_cases (fault w) (delete student_id) db) as [-> | ->].
  - split; [reflexivity|]. split; [reflexivity | lia].
  - split; [|split].
    + intros other Hne. now apply lookup_delete_ne.
    + apply delete_subseteq.
    + rewrite map_size_delete. destruct (db !! student_id); cbn; lia.
Qed.

(** A deletion that returns [True] leaves no row of the key. *)
Lemma delete_student_true_removes w db db' (student_id : Z) :
  delete_student w db student_id = (true, db') ->
  db' !! student_id = None /\
  filter (λ x, x.1 = student_id) (map_to_list db') = [].
Proof.
  unfold delete_student. intros [_ ->]%run_calls_true.
  assert (Hgone : delete student_id db !! student_id = None) by apply lookup_delete_eq.
  split; [exact Hgone | now apply filter_key_map_to_list_None].
Qed.

End Delete.

Lemma delete_student_missing_witness :
  sample_table !! 8 = None /\
  delete_student calm sample_table 8 = (true, sample_table).
Proof.
  split; [reflexivity|].
  apply (delete_student_missing sample_table 8); reflexivity.
Defined.

(** ** Listing *)

Section Listing.
Implicit Types (db : table) (w : world).

(** C7. When no call raises, [get_all_students] returns the rows of the
    table, each once, a row before every row that is not newer; on a table
    without rows it returns a frame of the ten columns and no row. *)
Theorem get_all_students_sorted w db :
  raises_in [Connect; Execute; Close] (fault w) = false ->
  records (get_all_students w db) ≡ₚ map_to_list db /\
  (∀ (student_id : Z) (r : student),
     (student_id, r) ∈ records (get_all_students w db) <-> db !! student_id = Some r) /\
  StronglySorted newest_first (records (get_all_students w db)) /\
  (db = ∅ ->
   get_all_students w db = {| columns := students_columns; records := [] |} /\
   df_len (get_all_students w db) = 0%nat /\
   df_empty (get_all_students w db) = true).
Proof.
  intros Hw. rewrite get_all_students_no_raise by exact Hw.
  split; [apply records_read_sql_query|]. split; [|split].
  - intros k r. rewrite records_read_sql_query. apply elem_of_map_to_list.
  - apply StronglySorted_merge_sort; apply _.
  - intros ->. unfold read_sql_query. rewrite map_to_list_empty. auto.
Qed.

Lemma get_all_students_raise w db :
  raises_in [Connect; Execute; Close] (fault w) = true ->
  get_all_students w db = pd_DataFrame.
Proof. unfold get_all_students. now intros ->. Qed.

(** C9, as amended. When a call raises, [get_all_students] returns
    [pd.DataFrame()], whatever the table holds. That frame has no row, as
    the frame of a table without rows: [len(df)] and [df.empty], which are
    what the pages look at, are the same for both. In every world the
    function returns a frame: one of the two. *)
Theorem get_all_students_masks_failure w db :
  raises_in [Connect; Execute; Close] (fault w) = true ->
  get_all_students w db = pd_DataFrame /\
  (∀ w0, raises_in [Connect; Execute; Close] (fault w0) = false ->
     records (get_all_students w db) = records (get_all_students w0 ∅) /\
     df_len (get_all_students w db) = df_len (get_all_students w0 ∅) /\
     df_empty (get_all_students w db) = df_empty (get_all_students w0 ∅)) /\
  (∀ w1 db1, get_all_students w1 db1 = pd_DataFrame \/
             get_all_students w1 db1 = read_sql_query db1).
Proof.
  intros Hw. rewrite get_all_students_raise by exact Hw.
  split; [reflexivity|]. split.
  - intros w0 Hw0. rewrite get_all_students_no_raise by exact Hw0.
    unfold read_sql_query, df_len, df_empty. cbn [records columns].
    rewrite map_to_list_empty. repeat split.
  - intros w1 db1. unfold get_all_students.
    destruct (raises_in _ (fault w1)); auto.
Qed.

End Listing.

Example get_all_students_two :
  records (get_all_students calm sample_table_two) =
  [(9, sample_row_again); (7, sample_row)].
Proof. vm_compute. reflexivity. Qed.

Lemma get_all_students_sorted_witness :
  raises_in [Connect; Execute; Close] (fault calm) = false /\
  StronglySorted newest_first (records (get_all_students calm sample_table_two)).
Proof.
  split; [reflexivity|].
  apply (get_all_students_sorted calm sample_table_two). reflexivity.
Defined.

Lemma get_all_students_masks_failure_witness :
  raises_in [Connect; Execute; Close] (fault broken) = true /\
  get_all_students broken sample_table_two = pd_DataFrame.
Proof.
  split; [reflexivity|].
  apply (get_all_students_masks_failure broken sample_table_two). reflexivity.
Defined.

(** C9, as stated, fails: the frame returned after an exception has no
    column, the frame of a table without rows has the ten columns of
    [students]; the two values differ. *)
Lemma get_all_students_failure_distinguishable :
  raises_in [Connect; Execute; Close] (fault broken) = true /\
  raises_in [Connect; Execute; Close] (fault calm) = false /\
  columns (get_all_students broken ∅) = [] /\
  columns (get_all_students calm ∅) = students_columns /\
  get_all_students broken ∅ <> get_all_students calm ∅.
Proof.
  split; [reflexivity|]. split; [reflexivity|].
  split; [reflexivity|]. split; [reflexivity|].
  intros Heq. apply (f_equal columns) in Heq. discriminate Heq.
Qed.

(** ** The rule is monotone *)

Section Monotone.
Import PyFloat.

(** A float that is above a literal stays above it when it grows. *)
Lemma gt_int_SFleb (x y : spec_float) (n : Z) :
  exact_literal n = true -> is_float x -> is_float y ->
  gt_int x n = true -> SFleb x y = true -> gt_int y n = true.
Proof.
  unfold exact_literal, gt_int, is_float, SFltb, SFleb.
  destruct (of_int n) as [| | |[|] m0 e0] eqn:Hlit; try discriminate.
  intros Hex Hx Hy. apply andb_true_iff in Hex as [Hex _].
  apply andb_true_iff in Hex as [Hex _]. apply andb_true_iff in Hex as [_ Hb0].
  destruct x as [sx | [|] | | [|] mx ex]; cbn; try discriminate.
  - intros _. destruct y as [sy | [|] | | sy my ey]; cbn; try discriminate; auto.
  - cbn [valid_binary] in Hx. intros Hlt.
    destruct y as [sy | [|] | | [|] my ey]; cbn; try discriminate; auto.
    cbn [valid_binary] in Hy.
    change (match SFcompare (S754_finite false mx ex) (S754_finite false my ey) with
            | Some Lt | Some Eq => true
            | _ => false
            end = true ->
            match SFcompare (S754_finite false m0 e0) (S754_finite false my ey) with
            | Some Lt => true
            | _ => false
            end = true).
    change (match SFcompare (S754_finite false m0 e0) (S754_finite false mx ex) with
            | Some Lt => true
            | _ => false
            end = true) in Hlt.
    rewrite SFcompare_scaled in Hlt by assumption.
    rewrite !SFcompare_scaled by assumption.
    destruct (Z.compare_spec (scaled m0 e0) (scaled mx ex)); try discriminate.
    destruct (Z.compare_spec (scaled mx ex) (scaled my ey)); try discriminate;
      intros _; destruct (Z.compare_spec (scaled m0 e0) (scaled my ey)); auto; lia.
Qed.

(** X1. Better inputs never lose a promotion: when [predict_promotion]
    returns "Promoted", it still does after the three rates are raised and
    the three counts are lowered, whatever the income. *)
Theorem predict_promotion_monotone
    (s a h s' a' h' : spec_float) (f c d f' c' d' : Z) (i i' : string) :
  is_float s -> is_float a -> is_float h ->
  is_float s' -> is_float a' -> is_float h' ->
  SFleb s s' = true -> SFleb a a' = true -> SFleb h h' = true ->
  f' <= f -> c' <= c -> d' <= d ->
  predict_promotion s a f c d h i = Promoted ->
  predict_promotion s' a' f' c' d' h' i' = Promoted.
Proof.
  intros Hs Ha Hh Hs' Ha' Hh' Hss Haa Hhh Hf Hc Hd. unfold predict_promotion.
  destruct (gt_int s 3) eqn:E1; [|discriminate].
  destruct (gt_int a 70) eqn:E2; [|discriminate].
  destruct (Z.leb_spec f 2); [|discriminate].
  destruct (Z.leb_spec c 40); [|discriminate].
  destruct (Z.leb_spec d 2); [|discriminate].
  destruct (gt_int h 80) eqn:E6; [|discriminate]. intros _.
  rewrite (gt_int_SFleb s s' 3 eq_refl Hs Hs' E1 Hss).
  rewrite (gt_int_SFleb a a' 70 eq_refl Ha Ha' E2 Haa).
  rewrite (gt_int_SFleb h h' 80 eq_refl Hh Hh' E6 Hhh).
  rewrite (proj2 (Z.leb_le f' 2)) by lia.
  rewrite (proj2 (Z.leb_le c' 40)) by lia.
  rewrite (proj2 (Z.leb_le d' 2)) by lia.
  reflexivity.
Qed.

End Monotone.

Lemma predict_promotion_monotone_witness :
  predict_promotion (PyFloat.of_int 4) (PyFloat.of_int 85) 2 40 2
    (PyFloat.of_int 90) "low" = Promoted /\
  predict_promotion (PyFloat.of_int 5) (PyFloat.of_int 100) 0 1 0
    (PyFloat.of_int 100) "high" = Promoted.
Proof.
  split; [reflexivity|].
  apply (predict_promotion_monotone
           (PyFloat.of_int 4) (PyFloat.of_int 85) (PyFloat.of_int 90)
           (PyFloat.of_int 5) (PyFloat.of_int 100) (PyFloat.of_int 100)
           2 40 2 0 1 0 "low" "high"); try reflexivity; lia.
Defined.

(** ** The texts of the "Predict Dropout" page *)

Section Display.
Implicit Types (db : table) (w : world) (f : form).

Lemma predict_and_save_shown w db f (status : string) :
  (predict_and_save w db f).1 = Some status -> status = rule_of_form f.
Proof.
  unfold predict_and_save.
  destruct (insert_student_data _ _ _ _ _ _ _ _ _ _ _) as [[|] db'];
    cbn; congruence.
Qed.

(** X2. When the page draws its result, the banner and the six marks agree
    with the label: the banner is the green one exactly when the label is
    "Promoted", which is exactly when every factor has a check mark; the
    label is the rule applied to the form. *)
Theorem predict_and_save_display_agrees w db f (d : prediction_display) :
  predict_and_save_display w db f = Some d ->
  banner_status d = rule_of_form f /\
  (banner d = Success <-> banner_status d = Promoted) /\
  (banner d = Success <-> Forall (λ x, x.2 = Tick) (factors d)) /\
  (banner d = Error <-> Exists (λ x, x.2 = Cross) (factors d)).
Proof.
  unfold predict_and_save_display.
  destruct (predict_and_save w db f).1 as [status|] eqn:Hshown; [|discriminate].
  apply predict_and_save_shown in Hshown. subst status. intros [= <-].
  cbn [banner banner_status factors]. split; [reflexivity|].
  unfold contributing_factors, rule_of_form, predict_promotion.
  destruct (PyFloat.gt_int (in_satisfaction f) 3),
           (PyFloat.gt_int (in_attendance f) 70),
           (in_failed_courses f <=? 2), (in_commute f <=? 40),
           (in_disciplinary f <=? 2), (PyFloat.gt_int (in_homework f) 80);
    cbn; (split; [split; [reflexivity || discriminate | reflexivity || discriminate]|]);
    (split; split; intros H;
     try reflexivity; try discriminate;
     try (repeat constructor; fail);
     try (repeat (apply Forall_cons in H as [? H]); discriminate);
     try (repeat (apply Exists_cons in H as [? | H]; [discriminate|]);
          now apply Exists_nil in H)).
Qed.

End Display.

Lemma predict_and_save_display_agrees_witness :
  predict_and_save_display calm ∅ sample_form =
    Some {| banner := Success; banner_student := 7; banner_status := Promoted;
            factors := contributing_factors sample_form |} /\
  Forall (λ x : string * mark, x.2 = Tick) (contributing_factors sample_form).
Proof.
  assert (H : predict_and_save_display calm ∅ sample_form =
              Some {| banner := Success; banner_student := 7;
                      banner_status := Promoted;
                      factors := contributing_factors sample_form |})
    by reflexivity.
  split; [exact H|].
  apply (predict_and_save_display_agrees calm ∅ sample_form _ H). reflexivity.
Defined.

(** ** How the accessors compose *)

Section Compose.
Implicit Types (db : table) (w : world) (s a h : spec_float) (f c d : Z)
  (inc status : string).

(** What a writing accessor leaves: the table of before, or the table
    after the statement. *)
Lemma insert_student_data_cases w db (student_id : Z) s a f c d h inc status :
  (insert_student_data w db student_id s a f c d h inc status).2 = db \/
  (insert_student_data w db student_id s a f c d h inc status).2 =
    <[student_id := new_row w s a f c d h inc status]> db.
Proof.
  unfold insert_student_data. rewrite <- insert_or_replace_insert.
  apply run_calls_cases.
Qed.

Lemma delete_student_true w db db' (student_id : Z) :
  delete_student w db student_id = (true, db') -> db' = delete student_id db.
Proof. unfold delete_student. now intros [_ ->]%run_calls_true. Qed.

(** X3. An upsert writes its whole row or nothing, and touches no other
    student: the rows of every other key are what they were, the key holds
    the new row whenever the table changed or [True] was returned, and the
    table has gained at most one row and lost none. *)
Theorem insert_student_data_frame w db (student_id : Z) s a f c d h inc status :
  (∀ other : Z, other <> student_id ->
     (insert_student_data w db student_id s a f c d h inc status).2 !! other
       = db !! other) /\
  ((insert_student_data w db student_id s a f c d h inc status).2 = db \/
   (insert_student_data w db student_id s a f c d h inc status).2 !! student_id
     = Some (new_row w s a f c d h inc status)) /\
  ((insert_student_data w db student_id s a f c d h inc status).1 = true ->
   (insert_student_data w db student_id s a f c d h inc status).2 !! student_id
     = Some (new_row w s a f c d h inc status)) /\
  (size db <= size (insert_student_data w db student_id s a f c d h inc status).2
    <= S (size db))%nat.
Proof.
  split; [|split; [|split]].
  - intros other Hne.
    destruct (insert_student_data_cases w db student_id s a f c d h inc status)
      as [-> | ->]; [reflexivity | now apply lookup_insert_ne].
  - destruct (insert_student_data_cases w db student_id s a f c d h inc status)
      as [-> | ->]; [now left | right; apply lookup_insert_eq].
  - destruct (insert_student_data w db student_id s a f c d h inc status)
      as [ok db'] eqn:Hins. cbn. intros ->.
    apply insert_student_data_true in Hins as [_ ->]. apply lookup_insert_eq.
  - destruct (insert_student_data_cases w db student_id s a f c d h inc status)
      as [-> | ->]; [lia|].
    rewrite map_size_insert. destruct (db !! student_id); cbn; lia.
Qed.

(** X4. Saving a student and deleting it again, both returning [True],
    leaves the table without that student; when the student was new, the
    table is the one of before. *)
Theorem insert_then_delete w w' db db1 db2 (student_id : Z) s a f c d h inc status :
  insert_student_data w db student_id s a f c d h inc status = (true, db1) ->
  delete_student w' db1 student_id = (true, db2) ->
  db2 = delete student_id db /\
  db2 !! student_id = None /\
  (db !! student_id = None -> db2 = db).
Proof.
  intros [_ ->]%insert_student_data_true ->%delete_student_true.
  rewrite delete_insert_eq. split; [reflexivity|]. split.
  - apply lookup_delete_eq.
  - apply delete_id.
Qed.

(** X5. The order of two submissions changes nothing but their dates. Two
    upserts of different students are made one after the other, the first
    at the clock of [w_first] and the second at the clock of [w_second], in
    one order or in the other, and all four calls return [True]. Both orders
    leave the rows of every other student as they were and, for each of the
    two students, a row with the values that were passed for it; its
    [prediction_date] is the clock of the call that wrote it, so the first
    clock in one order and the second in the other. The two tables are equal
    when the two clocks read the same. *)
Theorem submission_order_changes_only_dates w_first w_second db ta ta2 tb tb2
    (id1 id2 : Z) s1 a1 f1 c1 d1 h1 inc1 status1 s2 a2 f2 c2 d2 h2 inc2 status2 :
  id1 <> id2 ->
  insert_student_data w_first db id1 s1 a1 f1 c1 d1 h1 inc1 status1 = (true, ta) ->
  insert_student_data w_second ta id2 s2 a2 f2 c2 d2 h2 inc2 status2 = (true, ta2) ->
  insert_student_data w_first db id2 s2 a2 f2 c2 d2 h2 inc2 status2 = (true, tb) ->
  insert_student_data w_second tb id1 s1 a1 f1 c1 d1 h1 inc1 status1 = (true, tb2) ->
  (∀ other : Z, other <> id1 -> other <> id2 ->
     ta2 !! other = db !! other /\ tb2 !! other = db !! other) /\
  (∃ r r' : student,
     ta2 !! id1 = Some r /\ tb2 !! id1 = Some r' /\
     carries r s1 a1 f1 c1 d1 h1 inc1 status1 /\
     carries r' s1 a1 f1 c1 d1 h1 inc1 status1 /\
     prediction_date r = now w_first /\ prediction_date r' = now w_second) /\
  (∃ r r' : student,
     ta2 !! id2 = Some r /\ tb2 !! id2 = Some r' /\
     carries r s2 a2 f2 c2 d2 h2 inc2 status2 /\
     carries r' s2 a2 f2 c2 d2 h2 inc2 status2 /\
     prediction_date r = now w_second /\ prediction_date r' = now w_first) /\
  (now w_first = now w_second -> ta2 = tb2).
Proof.
  intros Hne [_ ->]%insert_student_data_true [_ ->]%insert_student_data_true
    [_ ->]%insert_student_data_true [_ ->]%insert_student_data_true.
  split; [|split; [|split]].
  - intros other H1 H2. now rewrite !lookup_insert_ne by congruence.
  - exists (new_row w_first s1 a1 f1 c1 d1 h1 inc1 status1),
           (new_row w_second s1 a1 f1 c1 d1 h1 inc1 status1).
    rewrite lookup_insert_ne, !lookup_insert_eq by congruence.
    unfold carries. cbn. repeat split.
  - exists (new_row w_second s2 a2 f2 c2 d2 h2 inc2 status2),
           (new_row w_first s2 a2 f2 c2 d2 h2 inc2 status2).
    rewrite lookup_insert_eq, lookup_insert_ne, lookup_insert_eq by congruence.
    unfold carries. cbn. repeat split.
  - intros Hnow. unfold new_row. rewrite Hnow. now apply insert_insert_ne.
Qed.

(** X6. A deletion that returns [True] for a student that the table holds
    removes one row, that one: the table is one row shorter, the listing that
    follows has no row of the key, and a second deletion changes nothing. *)
Theorem delete_student_present w db db' (student_id : Z) (r : student) :
  db !! student_id = Some r ->
  delete_student w db student_id = (true, db') ->
  db' !! student_id = None /\
  size db = S (size db') /\
  (∀ w', raises_in [Connect; Execute; Close] (fault w') = false ->
     rows_of student_id (get_all_students w' db') = []) /\
  (∀ w', (delete_student w' db' student_id).2 = db').
Proof.
  intros Hr ->%delete_student_true.
  assert (Hgone : delete student_id db !! student_id = None) by apply lookup_delete_eq.
  split; [exact Hgone|]. split; [|split].
  - rewrite map_size_delete, Hr. cbn.
    assert (size db <> 0%nat) by (apply map_size_ne_0_lookup_2 with student_id; eauto).
    lia.
  - intros w' Hw'. rewrite get_all_students_no_raise by exact Hw'.
    unfold rows_of. apply Permutation_nil_r.
    rewrite records_read_sql_query.
    now rewrite filter_key_map_to_list_None.
  - intros w'. unfold delete_student.
    destruct (run_calls_cases (fault w') (delete student_id) (delete student_id db))
      as [-> | ->]; [reflexivity | apply delete_delete_eq].
Qed.

End Compose.

Lemma insert_then_delete_witness :
  insert_student_data calm ∅ 7 (PyFloat.of_int 4) (PyFloat.of_int 85) 0 20 0
    (PyFloat.of_int 90) "low" Promoted = (true, sample_table) /\
  delete_student later sample_table 7 = (true, ∅) /\
  (∅ : table) = delete 7 ∅.
Proof.
  assert (H1 : insert_student_data calm ∅ 7 (PyFloat.of_int 4) (PyFloat.of_int 85)
                 0 20 0 (PyFloat.of_int 90) "low" Promoted = (true, sample_table))
    by (vm_compute; reflexivity).
  assert (H2 : delete_student later sample_table 7 = (true, ∅))
    by (vm_compute; reflexivity).
  split; [exact H1|]. split; [exact H2|].
  exact (proj1 (insert_then_delete calm later ∅ sample_table ∅ 7 _ _ _ _ _ _ _ _ H1 H2)).
Defined.

Lemma submission_order_changes_only_dates_witness :
  (7 : Z) <> 9 /\
  insert_student_data calm ∅ 7 (PyFloat.of_int 4) (PyFloat.of_int 85) 0 20 0
    (PyFloat.of_int 90) "low" Promoted = (true, sample_table) /\
  insert_student_data later sample_table 9 (PyFloat.of_int 4) (PyFloat.of_int 85)
    3 20 0 (PyFloat.of_int 90) "low" At_Risk = (true, sample_table_two) /\
  ∃ r r' : student,
    sample_table_two !! 9 = Some r /\
    (insert_student_data later
       (insert_student_data calm ∅ 9 (PyFloat.of_int 4) (PyFloat.of_int 85) 3 20 0
          (PyFloat.of_int 90) "low" At_Risk).2
       7 (PyFloat.of_int 4) (PyFloat.of_int 85) 0 20 0 (PyFloat.of_int 90) "low"
       Promoted).2 !! 9 = Some r' /\
    failed_courses r = 3 /\ failed_courses r' = 3 /\
    prediction_date r = 1700000060 /\ prediction_date r' = 1700000000.
Proof.
  assert (H1 : insert_student_data calm ∅ 7 (PyFloat.of_int 4) (PyFloat.of_int 85)
                 0 20 0 (PyFloat.of_int 90) "low" Promoted = (true, sample_table))
    by (vm_compute; reflexivity).
  assert (H2 : insert_student_data later sample_table 9 (PyFloat.of_int 4)
                 (PyFloat.of_int 85) 3 20 0 (PyFloat.of_int 90) "low" At_Risk
               = (true, sample_table_two))
    by (vm_compute; reflexivity).
  assert (H3 : insert_student_data calm ∅ 9 (PyFloat.of_int 4) (PyFloat.of_int 85)
                 3 20 0 (PyFloat.of_int 90) "low" At_Risk
               = (true, (insert_student_data calm ∅ 9 (PyFloat.of_int 4)
                           (PyFloat.of_int 85) 3 20 0 (PyFloat.of_int 90) "low"
                           At_Risk).2))
    by reflexivity.
  assert (H4 : insert_student_data later
                 (insert_student_data calm ∅ 9 (PyFloat.of_int 4) (PyFloat.of_int 85)
                    3 20 0 (PyFloat.of_int 90) "low" At_Risk).2
                 7 (PyFloat.of_int 4) (PyFloat.of_int 85) 0 20 0 (PyFloat.of_int 90)
                 "low" Promoted
               = (true, (insert_student_data later
                           (insert_student_data calm ∅ 9 (PyFloat.of_int 4)
                              (PyFloat.of_int 85) 3 20 0 (PyFloat.of_int 90) "low"
                              At_Risk).2
                           7 (PyFloat.of_int 4) (PyFloat.of_int 85) 0 20 0
                           (PyFloat.of_int 90) "low" Promoted).2))
    by reflexivity.
  split; [discriminate|]. split; [exact H1|]. split; [exact H2|].
  destruct (submission_order_changes_only_dates calm later ∅ _ _ _ _ 7 9
              _ _ _ _ _ _ _ _ _ _ _ _ _ _ _ _
              ltac:(discriminate) H1 H2 H3 H4)
    as (_ & _ & (r & r' & Hr & Hr' & Hc & Hc' & Hd & Hd') & _).
  exists r, r'. split; [exact Hr|]. split; [exact Hr'|].
  split; [exact (proj1 (proj2 (proj2 Hc)))|].
  split; [exact (proj1 (proj2 (proj2 Hc')))|].
  split; [exact Hd | exact Hd'].
Defined.

Lemma delete_student_present_witness :
  sample_table_two !! 9 = Some sample_row_again /\
  delete_student calm sample_table_two 9 = (true, sample_table) /\
  size sample_table_two = S (size sample_table).
Proof.
  assert (H1 : sample_table_two !! 9 = Some sample_row_again) by reflexivity.
  assert (H2 : delete_student calm sample_table_two 9 = (true, sample_table))
    by (vm_compute; reflexivity).
  split; [exact H1|]. split; [exact H2|].
  apply (delete_student_present calm sample_table_two sample_table 9
           sample_row_again H1 H2).
Defined.

(** ** More on the listing *)

Section ListingOrder.
Implicit Types (db : table) (w : world) (s a h : spec_float) (f c d : Z)
  (inc status : string).

(** X7. When no call raises, the listing has one row per stored student:
    its length is the number of rows of the table and no [student_id]
    comes twice. *)
Theorem get_all_students_one_row_each w db :
  raises_in [Connect; Execute; Close] (fault w) = false ->
  df_len (get_all_students w db) = size db /\
  NoDup (records (get_all_students w db)).*1.
Proof.
  intros Hw. rewrite get_all_students_no_raise by exact Hw.
  unfold df_len. rewrite records_read_sql_query. split.
  - apply length_map_to_list.
  - apply NoDup_fst_map_to_list.
Qed.

(** X8. The student that was saved last is listed first: when the clock of
    an upsert that returns [True] is past the [prediction_date] of every
    stored row, the listing that follows starts with the new row. *)
Theorem latest_submission_first w w' db db' (student_id : Z) s a f c d h inc status :
  (∀ (k : Z) (r : student), db !! k = Some r -> prediction_date r < now w) ->
  insert_student_data w db student_id s a f c d h inc status = (true, db') ->
  raises_in [Connect; Execute; Close] (fault w') = false ->
  ∃ rest : list (Z * student),
    records (get_all_students w' db') =
      (student_id, new_row w s a f c d h inc status) :: rest.
Proof.
  intros Hold [_ ->]%insert_student_data_true Hw'.
  rewrite get_all_students_no_raise by exact Hw'.
  set (new := new_row w s a f c d h inc status).
  assert (Hsorted : StronglySorted newest_first
                      (records (read_sql_query (<[student_id := new]> db))))
    by (apply StronglySorted_merge_sort; apply _).
  assert (Hin : (student_id, new) ∈ records (read_sql_query (<[student_id := new]> db))).
  { rewrite records_read_sql_query. apply elem_of_map_to_list, lookup_insert_eq. }
  assert (Hall : ∀ x, x ∈ records (read_sql_query (<[student_id := new]> db)) ->
                      x = (student_id, new) \/ prediction_date x.2 < now w).
  { intros [k r]. rewrite records_read_sql_query.
    intros Hk%elem_of_map_to_list. rewrite lookup_insert in Hk.
    case_decide; [left; congruence | right; eauto]. }
  destruct (records (read_sql_query (<[student_id := new]> db))) as [|x rest].
  - now apply elem_of_nil in Hin.
  - exists rest. f_equal.
    destruct (Hall x) as [Hx | Hx]; [left | exact Hx |].
    apply elem_of_cons in Hin as [Heq | Hin]; [congruence|].
    apply StronglySorted_inv in Hsorted as [_ Hhd].
    rewrite Forall_forall in Hhd. specialize (Hhd _ Hin).
    unfold newest_first in Hhd. cbn in Hhd. lia.
Qed.

End ListingOrder.

Lemma get_all_students_one_row_each_witness :
  raises_in [Connect; Execute; Close] (fault calm) = false /\
  df_len (get_all_students calm sample_table_two) = 2%nat.
Proof.
  split; [reflexivity|].
  apply (get_all_students_one_row_each calm sample_table_two). reflexivity.
Defined.

Lemma latest_submission_first_witness :
  insert_student_data later sample_table 9 (PyFloat.of_int 4) (PyFloat.of_int 85)
    3 20 0 (PyFloat.of_int 90) "low" At_Risk = (true, sample_table_two) /\
  ∃ rest : list (Z * student),
    records (get_all_students calm sample_table_two) = (9, sample_row_again) :: rest.
Proof.
  assert (H1 : insert_student_data later sample_table 9 (PyFloat.of_int 4)
                 (PyFloat.of_int 85) 3 20 0 (PyFloat.of_int 90) "low" At_Risk
               = (true, sample_table_two))
    by (vm_compute; reflexivity).
  split; [exact H1|].
  apply (latest_submission_first later calm sample_table sample_table_two 9
           (PyFloat.of_int 4) (PyFloat.of_int 85) 3 20 0 (PyFloat.of_int 90)
           "low" At_Risk); [|exact H1|reflexivity].
  intros k r Hk. unfold sample_table in Hk.
  apply lookup_insert_Some in Hk as [[_ <-] | [_ Hk]].
  - vm_compute. reflexivity.
  - rewrite lookup_empty in Hk. discriminate.
Defined.

(** ** Lists: [unique], [value_counts] and filters *)

Section Lists.

Lemma filter_all {A} (P : A -> Prop) `{∀ x, Decision (P x)} (l : list A) :
  (∀ x, x ∈ l -> P x) -> filter P l = l.
Proof.
  induction l as [|x l IH]; intros Hl; [reflexivity|].
  rewrite filter_cons_True by (apply Hl; left).
  f_equal. apply IH. intros y Hy. apply Hl. now right.
Qed.

Lemma StronglySorted_filter {A} (R : relation A) (P : A -> Prop)
    `{∀ x, Decision (P x)} (l : list A) :
  StronglySorted R l -> StronglySorted R (filter P l).
Proof.
  induction 1 as [|x l Hl IH Hx]; [constructor|].
  rewrite filter_cons. destruct (decide (P x)); [|exact IH].
  constructor; [exact IH|].
  rewrite Forall_forall in Hx |- *.
  intros y [_ Hy]%list_elem_of_filter. now apply Hx.
Qed.

(** Two tests that split a list split its length. *)
Lemma length_filter_split {A} (P Q : A -> Prop)
    `{∀ x, Decision (P x)} `{∀ x, Decision (Q x)} (l : list A) :
  (∀ x, x ∈ l -> (P x \/ Q x) /\ ¬ (P x /\ Q x)) ->
  (length (filter P l) + length (filter Q l) = length l)%nat.
Proof.
  induction l as [|x l IH]; intros Hl; [reflexivity|].
  assert (Hx : (P x \/ Q x) /\ ¬ (P x /\ Q x)) by (apply Hl; left).
  assert (IH' : (length (filter P l) + length (filter Q l) = length l)%nat).
  { apply IH. intros y Hy. apply Hl. now right. }
  rewrite !filter_cons.
  destruct (decide (P x)), (decide (Q x)); cbn; try lia; tauto.
Qed.

Lemma elem_of_unique_from (seen l : list string) (x : string) :
  x ∈ unique_from seen l <-> x ∈ l /\ x ∉ seen.
Proof.
  revert seen. induction l as [|y l IH]; intros seen; cbn.
  - rewrite !elem_of_nil. tauto.
  - destruct (decide (y ∈ seen)) as [Hy | Hy].
    + rewrite IH, elem_of_cons. split; [tauto|].
      intros [[-> | Hx] Hns]; tauto.
    + rewrite elem_of_cons, IH, !elem_of_cons.
      destruct (decide (x = y)) as [-> | Hne]; tauto.
Qed.

Lemma elem_of_unique (l : list string) (x : string) : x ∈ unique l <-> x ∈ l.
Proof.
  unfold unique. rewrite elem_of_unique_from, elem_of_nil. tauto.
Qed.

Lemma NoDup_unique_from (seen l : list string) : NoDup (unique_from seen l).
Proof.
  revert seen. induction l as [|y l IH]; intros seen; cbn; [constructor|].
  destruct (decide (y ∈ seen)); [apply IH|].
  constructor; [|apply IH].
  rewrite elem_of_unique_from, elem_of_cons. tauto.
Qed.

Lemma occurrences_cons (v y : string) (l : list string) :
  occurrences v (y :: l) =
  ((if decide (y = v) then 1 else 0) + occurrences v l)%nat.
Proof.
  unfold occurrences. rewrite filter_cons. now destruct (decide (y = v)).
Qed.

Lemma sum_occurrences_skip (y : string) (l vs : list string) :
  (∀ v, v ∈ vs -> v <> y) ->
  sum_list_with (λ v, occurrences v (y :: l)) vs =
  sum_list_with (λ v, occurrences v l) vs.
Proof.
  induction vs as [|v vs IH]; intros Hns; [reflexivity|].
  cbn [sum_list_with]. rewrite IH by (intros u Hu; apply Hns; now right).
  rewrite occurrences_cons. rewrite decide_False; [reflexivity|].
  intros ->. now apply (Hns v); [left|].
Qed.

(** The counts of the values that were not seen before add up to the number
    of elements that were not seen before. *)
Lemma sum_occurrences_unique_from (seen l : list string) :
  sum_list_with (λ v, occurrences v l) (unique_from seen l) =
  length (filter (λ y, y ∉ seen) l).
Proof.
  revert seen. induction l as [|y l IH]; intros seen; [reflexivity|].
  assert (Hshift : ∀ seen',
            y ∈ seen' ->
            sum_list_with (λ v, occurrences v (y :: l)) (unique_from seen' l) =
            sum_list_with (λ v, occurrences v l) (unique_from seen' l)).
  { intros seen' Hy. apply sum_occurrences_skip.
    intros v [_ Hv]%elem_of_unique_from ->. contradiction. }
  cbn [unique_from]. rewrite filter_cons.
  destruct (decide (y ∈ seen)) as [Hy | Hy].
  - rewrite decide_False by tauto. rewrite Hshift by exact Hy. apply IH.
  - rewrite decide_True by exact Hy. cbn [sum_list_with length].
    rewrite Hshift by (left).
    rewrite IH, occurrences_cons, decide_True by reflexivity.
    unfold occurrences. cbn. f_equal.
    rewrite <- (length_filter_split (λ z, z = y) (λ z, z ∉ y :: seen)
                  (filter (λ z, z ∉ seen) l)).
    + rewrite !list_filter_filter. f_equal; f_equal.
      * apply list_filter_iff. intros z. split; [|tauto]. intros ->. tauto.
      * apply list_filter_iff. intros z. rewrite elem_of_cons. tauto.
    + intros z [Hz _]%list_elem_of_filter. rewrite elem_of_cons.
      destruct (decide (z = y)); tauto.
Qed.

Lemma sum_value_counts (l : list string) :
  sum_list_with snd (value_counts l) = length l.
Proof.
  unfold value_counts. rewrite merge_sort_Permutation.
  transitivity (sum_list_with (λ v, occurrences v l) (unique l)).
  - induction (unique l) as [|v vs IH]; [reflexivity|]. cbn. now rewrite IH.
  - unfold unique. rewrite sum_occurrences_unique_from.
    f_equal. apply filter_all. intros x _. apply not_elem_of_nil.
Qed.

Lemma value_counts_fst (l : list string) : (value_counts l).*1 ≡ₚ unique l.
Proof.
  unfold value_counts. rewrite merge_sort_Permutation.
  rewrite <- list_fmap_compose. cbn.
  induction (unique l) as [|v vs IH]; [reflexivity|]. cbn. now rewrite IH.
Qed.

Lemma elem_of_value_counts (l : list string) (x : string * nat) :
  x ∈ value_counts l <-> x.1 ∈ l /\ x.2 = occurrences x.1 l.
Proof.
  unfold value_counts. rewrite merge_sort_Permutation, list_elem_of_fmap.
  split.
  - intros (v & -> & Hv). split; [|reflexivity].
    exact (proj1 (elem_of_unique l v) Hv).
  - intros [Hv Hn]. exists x.1. rewrite elem_of_unique. split; [|exact Hv].
    destruct x as [v n]. cbn in *. now subst n.
Qed.

Lemma elem_of_value_counts_pair (l : list string) (v : string) (n : nat) :
  (v, n) ∈ value_counts l <-> v ∈ l /\ n = occurrences v l.
Proof. apply (elem_of_value_counts l (v, n)). Qed.

Lemma occurrences_fmap {A} (g : A -> string) (v : string) (l : list A) :
  occurrences v (g <$> l) = length (filter (λ x, g x = v) l).
Proof.
  unfold occurrences. induction l as [|x l IH]; [reflexivity|].
  rewrite fmap_cons, !filter_cons.
  destruct (decide (g x = v)); cbn; now rewrite IH.
Qed.

Lemma occurrences_pos (v : string) (l : list string) :
  v ∈ l -> (0 < occurrences v l)%nat.
Proof.
  intros Hv. unfold occurrences.
  assert (Hin : v ∈ filter (λ y, y = v) l) by (apply list_elem_of_filter; auto).
  destruct (filter (λ y, y = v) l); [now apply elem_of_nil in Hin | cbn; lia].
Qed.

Lemma occurrences_pos_elem (v : string) (l : list string) :
  (0 < occurrences v l)%nat -> v ∈ l.
Proof.
  unfold occurrences. intros Hpos.
  destruct (filter (λ y, y = v) l) as [|y ys] eqn:Hf; [cbn in Hpos; lia|].
  assert (Hy : y ∈ filter (λ y, y = v) l) by (rewrite Hf; left).
  apply list_elem_of_filter in Hy as [-> Hy]. exact Hy.
Qed.

(** The counts of a column: a value is listed with [n] exactly when [n] is
    positive and is the number of rows that carry the value. *)
Lemma value_counts_column {A} (g : A -> string) (l : list A) (v : string) (n : nat) :
  (v, n) ∈ value_counts (g <$> l) <->
  (0 < n)%nat /\ n = length (filter (λ x, g x = v) l).
Proof.
  rewrite elem_of_value_counts_pair, occurrences_fmap. split.
  - intros [Hv ->]. split; [|reflexivity].
    rewrite <- occurrences_fmap. now apply occurrences_pos.
  - intros [Hpos ->]. split; [|reflexivity].
    apply occurrences_pos_elem. now rewrite occurrences_fmap.
Qed.

End Lists.

(** ** The pages that read the table *)

Section Pages.
Implicit Types (db : table) (w : world).

(** A listing that is not empty is the result of the query: the frame of
    the [except] branch is empty. *)
Lemma listing_not_empty w db :
  df_empty (get_all_students w db) = false ->
  get_all_students w db = read_sql_query db /\
  raises_in [Connect; Execute; Close] (fault w) = false /\
  records (read_sql_query db) <> [].
Proof.
  unfold get_all_students. destruct (raises_in _ _); [discriminate|].
  intros He. split; [reflexivity|]. split; [reflexivity|].
  intros Hnil. unfold df_empty in He. rewrite Hnil in He. discriminate.
Qed.

Lemma listing_empty w db :
  df_empty (get_all_students w db) = true ->
  raises_in [Connect; Execute; Close] (fault w) = true \/ db = ∅.
Proof.
  unfold get_all_students. destruct (raises_in _ _); [now left|].
  intros He. right. unfold df_empty, read_sql_query in He. cbn in He.
  apply Nat.eqb_eq, length_zero_iff_nil in He.
  apply map_to_list_empty_iff. apply Permutation_nil_r.
  now rewrite <- (merge_sort_Permutation newest_first), He.
Qed.

Ltac column_present :=
  rewrite !decide_True by (try split; apply (bool_decide_unpack _); vm_compute; exact I).

Lemma home_page_drawn w_total w_df db :
  df_empty (get_all_students w_df db) = false ->
  home_page w_total w_df db =
  Drawn {| total_students := df_len (get_all_students w_total db);
           at_risk_students :=
             Some (length (filter (λ x, promotion_status x.2 = At_Risk)
                             (records (read_sql_query db))));
           promoted_students :=
             Some (length (filter (λ x, promotion_status x.2 = Promoted)
                             (records (read_sql_query db)))) |}.
Proof.
  intros He. unfold home_page. rewrite He.
  apply listing_not_empty in He as [-> _].
  unfold count_status, df_select. cbn [columns read_sql_query].
  column_present. reflexivity.
Qed.

Lemma view_database_page_drawn w db (status_choice income_choice : option (list string)) :
  df_empty (get_all_students w db) = false ->
  view_database_page w db status_choice income_choice =
  Drawn
    {| total_records := length (records (read_sql_query db));
       attendance_rates := (λ x, attendance_rate x.2) <$> records (read_sql_query db);
       at_risk_records :=
         length (filter (λ x, promotion_status x.2 = At_Risk)
                   (records (read_sql_query db)));
       satisfactions := (λ x, school_satisfaction x.2) <$> records (read_sql_query db);
       status_options :=
         unique ((λ x, promotion_status x.2) <$> records (read_sql_query db));
       income_options :=
         unique ((λ x, family_income x.2) <$> records (read_sql_query db));
       filtered_df :=
         {| columns := students_columns;
            records :=
              filter
                (λ x, promotion_status x.2 ∈
                        multiselect
                          (unique ((λ x, promotion_status x.2) <$>
                                   records (read_sql_query db))) status_choice ∧
                      family_income x.2 ∈
                        multiselect
                          (unique ((λ x, family_income x.2) <$>
                                   records (read_sql_query db))) income_choice)
                (records (read_sql_query db)) |} |}.
Proof.
  intros He. unfold view_database_page. rewrite He.
  apply listing_not_empty in He as [-> _].
  unfold count_status, df_select, df_column, df_filter.
  cbn [columns read_sql_query]. column_present. reflexivity.
Qed.

Lemma analytics_page_drawn w db :
  df_empty (get_all_students w db) = false ->
  analytics_page w db =
  Drawn
    {| status_counts :=
         value_counts ((λ x, promotion_status x.2) <$> records (read_sql_query db));
       income_counts :=
         value_counts ((λ x, family_income x.2) <$> records (read_sql_query db));
       scatter_points :=
         (λ x, (attendance_rate x.2, school_satisfaction x.2, promotion_status x.2))
           <$> records (read_sql_query db);
       histogram_values :=
         (λ x, (failed_courses x.2, promotion_status x.2))
           <$> records (read_sql_query db) |}.
Proof.
  intros He. unfold analytics_page. rewrite He.
  apply listing_not_empty in He as [-> _].
  unfold df_column. cbn [columns read_sql_query]. column_present. reflexivity.
Qed.

(** Once the table is at hand, the body of a page does not stop on a
    missing column: every access to a column is behind the test [df.empty],
    and the frame without columns that [get_all_students] returns after an
    exception is empty. *)
Lemma page_bodies_never_crash w_total w_df w db
    (status_choice income_choice : option (list string)) :
  home_page w_total w_df db <> Crashed /\
  view_database_page w db status_choice income_choice <> Crashed /\
  analytics_page w db <> Crashed.
Proof.
  split; [|split].
  - destruct (df_empty (get_all_students w_df db)) eqn:He.
    + unfold home_page. rewrite He. discriminate.
    + rewrite home_page_drawn by exact He. discriminate.
  - destruct (df_empty (get_all_students w db)) eqn:He.
    + unfold view_database_page. rewrite He. discriminate.
    + rewrite view_database_page_drawn by exact He. discriminate.
  - destruct (df_empty (get_all_students w db)) eqn:He.
    + unfold analytics_page. rewrite He. discriminate.
    + rewrite analytics_page_drawn by exact He. discriminate.
Qed.

Lemma initialize_database_or_raise_None w (file : option table) :
  initialize_database_or_raise w file = None <-> fault w <> None.
Proof.
  unfold initialize_database_or_raise.
  destruct (fault w) as [c|]; [|cbn; split; congruence].
  assert (Hraise : raises_in write_block (Some c) = true)
    by (destruct c; apply (bool_decide_eq_true_2 _); unfold write_block; set_solver).
  rewrite Hraise. split; congruence.
Qed.

(** X9. A run of Home, View Database or Analytics stops on an exception
    exactly when a call of the unguarded [initialize_database()] raises.
    Nothing that [get_all_students] does, whichever of its calls raises, and
    no access to a column stops a page: when [initialize_database()]
    completes, the page is drawn, or tells that there is no record, on the
    table that [initialize_database] leaves. *)
Theorem pages_stop_only_in_initialize_database
    (w_init w_total w_df w : world) (file : option table)
    (status_choice income_choice : option (list string)) :
  (home_script w_init w_total w_df file = Crashed <-> fault w_init <> None) /\
  (view_database_script w_init w file status_choice income_choice = Crashed <->
   fault w_init <> None) /\
  (analytics_script w_init w file = Crashed <-> fault w_init <> None) /\
  (fault w_init = None ->
   home_script w_init w_total w_df file =
     home_page w_total w_df (initialize_database file) /\
   view_database_script w_init w file status_choice income_choice =
     view_database_page w (initialize_database file) status_choice income_choice /\
   analytics_script w_init w file = analytics_page w (initialize_database file)).
Proof.
  pose proof (page_bodies_never_crash w_total w_df w (initialize_database file)
                status_choice income_choice) as (Hhome & Hview & Hanalytics).
  pose proof (initialize_database_or_raise_None w_init file) as Hnone.
  unfold home_script, view_database_script, analytics_script.
  destruct (initialize_database_or_raise w_init file) as [db|] eqn:Hinit.
  - assert (Hok : fault w_init = None).
    { destruct (fault w_init); [|reflexivity].
      exfalso. assert (Some db = None) by (apply Hnone; discriminate). discriminate. }
    assert (Hdb : db = initialize_database file).
    { unfold initialize_database_or_raise in Hinit. rewrite Hok in Hinit.
      cbn in Hinit. congruence. }
    subst db. repeat split; tauto.
  - assert (Hraise : fault w_init <> None) by now apply Hnone.
    repeat split; tauto.
Qed.

(** Every stored label is one of the two that the rule returns. *)
Lemma reachable_labels db (student_id : Z) (r : student) :
  reachable db -> db !! student_id = Some r ->
  promotion_status r = Promoted \/ promotion_status r = At_Risk.
Proof.
  intros Hreach.
  assert (Hc : store_consistent db).
  { induction Hreach as [i | i db Hreach IH]; apply script_run_consistent;
      [discriminate | now intros db' [= <-]]. }
  intros Hr. rewrite (Hc student_id r Hr). unfold predict_promotion.
  destruct (_ && _); auto.
Qed.

(** X10. On "Home" the two counts add up to the total. For a table that
    the application can reach, when the first listing does not raise: the
    total is the number of stored students; the numbers of students at risk
    and promoted, when they are drawn, sum to it; they are not drawn only
    when the table has no row or the second listing raised. *)
Theorem home_page_counts_add_up w_total w_df db (m : home_metrics) :
  reachable db ->
  raises_in [Connect; Execute; Close] (fault w_total) = false ->
  home_page w_total w_df db = Drawn m ->
  total_students m = size db /\
  match at_risk_students m, promoted_students m with
  | Some at_risk, Some promoted => (at_risk + promoted)%nat = total_students m
  | None, None =>
      db = ∅ \/ raises_in [Connect; Execute; Close] (fault w_df) = true
  | _, _ => False
  end.
Proof.
  intros Hreach Htotal.
  assert (Hlen : df_len (get_all_students w_total db) = size db).
  { rewrite get_all_students_no_raise by exact Htotal.
    unfold df_len. rewrite records_read_sql_query. apply length_map_to_list. }
  destruct (df_empty (get_all_students w_df db)) eqn:He.
  - unfold home_page. rewrite He. intros [= <-]. cbn. split; [exact Hlen|].
    apply listing_empty in He. tauto.
  - rewrite home_page_drawn by exact He. intros [= <-]. cbn.
    split; [exact Hlen|]. rewrite Hlen.
    replace (size db) with (length (records (read_sql_query db)))
      by (rewrite records_read_sql_query; apply length_map_to_list).
    apply length_filter_split. intros [k r] Hin. cbn.
    rewrite records_read_sql_query in Hin. apply elem_of_map_to_list in Hin.
    destruct (reachable_labels db k r Hreach Hin) as [-> | ->].
    + split; [now right | intros [Habs _]; discriminate Habs].
    + split; [now left | intros [_ Habs]; discriminate Habs].
Qed.

End Pages.

Lemma home_page_counts_add_up_witness :
  reachable (script_run (PredictAndSave calm sample_form) None) /\
  home_page calm later (script_run (PredictAndSave calm sample_form) None) =
    Drawn {| total_students := 1;
             at_risk_students := Some 0%nat;
             promoted_students := Some 1%nat |} /\
  (1 : nat) = size (script_run (PredictAndSave calm sample_form) None).
Proof.
  assert (Hr : reachable (script_run (PredictAndSave calm sample_form) None))
    by apply reachable_first_run.
  assert (Hp : home_page calm later (script_run (PredictAndSave calm sample_form) None) =
               Drawn {| total_students := 1;
                        at_risk_students := Some 0%nat;
                        promoted_students := Some 1%nat |})
    by (vm_compute; reflexivity).
  split; [exact Hr|]. split; [exact Hp|].
  exact (proj1 (home_page_counts_add_up calm later _ _ Hr eq_refl Hp)).
Defined.

(** ** "View Database" and "Analytics" *)

Section Views.
Implicit Types (db : table) (w : world).

Lemma read_sql_query_eta db :
  {| columns := students_columns; records := records (read_sql_query db) |}
  = read_sql_query db.
Proof. reflexivity. Qed.

(** X11. With the two filters as the page first shows them, every option
    selected, the table that is drawn is the whole listing: no student is
    hidden, and the total is the number of stored students. *)
Theorem view_database_default_shows_all w db (v : database_view) :
  view_database_page w db None None = Drawn v ->
  filtered_df v = get_all_students w db /\
  total_records v = size db /\
  (0 < size db)%nat.
Proof.
  destruct (df_empty (get_all_students w db)) eqn:He.
  { unfold view_database_page. rewrite He. discriminate. }
  rewrite view_database_page_drawn by exact He. intros [= <-].
  apply listing_not_empty in He as (-> & _ & Hne).
  cbn [filtered_df total_records multiselect default].
  assert (Hlen : length (records (read_sql_query db)) = size db).
  { rewrite records_read_sql_query. apply length_map_to_list. }
  split; [|split; [exact Hlen|]].
  - rewrite filter_all; [apply read_sql_query_eta|].
    intros x Hx. split; apply elem_of_unique, list_elem_of_fmap; eauto.
  - rewrite <- Hlen. destruct (records (read_sql_query db)); [congruence | cbn; lia].
Qed.

(** X12. Whatever is selected in the two filters, the table that is drawn
    keeps the columns and the order of the listing, newest first; it shows a
    row of the listing exactly when its status and its income are selected;
    nothing is shown when a filter has no option selected. *)
Theorem view_database_filters_keep_order w db
    (status_choice income_choice : option (list string)) (v : database_view) :
  view_database_page w db status_choice income_choice = Drawn v ->
  columns (filtered_df v) = students_columns /\
  records (filtered_df v) `sublist_of` records (get_all_students w db) /\
  StronglySorted newest_first (records (filtered_df v)) /\
  (∀ x : Z * student,
     x ∈ records (filtered_df v) <->
     x ∈ records (get_all_students w db) /\
     promotion_status x.2 ∈ multiselect (status_options v) status_choice /\
     family_income x.2 ∈ multiselect (income_options v) income_choice) /\
  (status_choice = Some [] \/ income_choice = Some [] ->
   records (filtered_df v) = []).
Proof.
  destruct (df_empty (get_all_students w db)) eqn:He.
  { unfold view_database_page. rewrite He. discriminate. }
  rewrite view_database_page_drawn by exact He. intros [= <-].
  apply listing_not_empty in He as (-> & _ & _).
  cbn [filtered_df columns records status_options income_options].
  split; [reflexivity|]. split; [apply sublist_filter|]. split; [|split].
  - apply StronglySorted_filter, StronglySorted_merge_sort; apply _.
  - intros x. rewrite list_elem_of_filter. tauto.
  - intros Hnone. apply filter_none. intros x _ [Hs Hi].
    destruct Hnone as [-> | ->]; cbn in *; [now apply elem_of_nil in Hs|].
    now apply elem_of_nil in Hi.
Qed.

(** X13. On "Analytics" the counts by status and the counts by income each
    add up to the number of stored students; no value is counted twice and
    the most frequent value comes first; and, for the status as for the
    income, a value is listed with a count exactly when that count is
    positive and is the number of stored rows that carry the value. *)
Theorem analytics_counts w db (v : analytics_view) :
  analytics_page w db = Drawn v ->
  sum_list_with snd (status_counts v) = size db /\
  sum_list_with snd (income_counts v) = size db /\
  NoDup (status_counts v).*1 /\ NoDup (income_counts v).*1 /\
  StronglySorted more_frequent (status_counts v) /\
  StronglySorted more_frequent (income_counts v) /\
  (∀ (label : string) (n : nat),
     (label, n) ∈ status_counts v <->
     (0 < n)%nat /\
     n = length (filter (λ x, promotion_status x.2 = label) (map_to_list db))) /\
  (∀ (income : string) (n : nat),
     (income, n) ∈ income_counts v <->
     (0 < n)%nat /\
     n = length (filter (λ x, family_income x.2 = income) (map_to_list db))).
Proof.
  destruct (df_empty (get_all_students w db)) eqn:He.
  { unfold analytics_page. rewrite He. discriminate. }
  rewrite analytics_page_drawn by exact He. intros [= <-].
  cbn [status_counts income_counts].
  assert (Hlen : length (records (read_sql_query db)) = size db).
  { rewrite records_read_sql_query. apply length_map_to_list. }
  assert (Htotal : Total more_frequent) by (intros x y; unfold more_frequent; lia).
  assert (Htrans : Transitive more_frequent)
    by (intros x y z; unfold more_frequent; lia).
  split; [now rewrite sum_value_counts, length_fmap|].
  split; [now rewrite sum_value_counts, length_fmap|].
  split; [rewrite value_counts_fst; apply NoDup_unique_from|].
  split; [rewrite value_counts_fst; apply NoDup_unique_from|].
  split; [apply StronglySorted_merge_sort; assumption|].
  split; [apply StronglySorted_merge_sort; assumption|].
  split; intros label n; rewrite value_counts_column;
    unfold read_sql_query; cbn [records];
    now rewrite (merge_sort_Permutation newest_first).
Qed.

End Views.

Lemma view_database_default_shows_all_witness :
  view_database_page calm sample_table None None =
    Drawn {| total_records := 1;
             attendance_rates := [PyFloat.of_int 85];
             at_risk_records := 0;
             satisfactions := [PyFloat.of_int 4];
             status_options := [Promoted];
             income_options := ["low"];
             filtered_df := get_all_students calm sample_table |} /\
  (1 : nat) = size sample_table.
Proof.
  assert (H : view_database_page calm sample_table None None =
              Drawn {| total_records := 1;
                       attendance_rates := [PyFloat.of_int 85];
                       at_risk_records := 0;
                       satisfactions := [PyFloat.of_int 4];
                       status_options := [Promoted];
                       income_options := ["low"];
                       filtered_df := get_all_students calm sample_table |})
    by (vm_compute; reflexivity).
  split; [exact H|].
  exact (proj1 (proj2 (view_database_default_shows_all calm sample_table _ H))).
Defined.

Lemma view_database_filters_keep_order_witness :
  view_database_page calm sample_table_two (Some [At_Risk]) None =
    Drawn {| total_records := 2;
             attendance_rates := [PyFloat.of_int 85; PyFloat.of_int 85];
             at_risk_records := 1;
             satisfactions := [PyFloat.of_int 4; PyFloat.of_int 4];
             status_options := [At_Risk; Promoted];
             income_options := ["low"];
             filtered_df := {| columns := students_columns;
                               records := [(9, sample_row_again)] |} |} /\
  StronglySorted newest_first [(9, sample_row_again)].
Proof.
  assert (H : view_database_page calm sample_table_two (Some [At_Risk]) None =
              Drawn {| total_records := 2;
                       attendance_rates := [PyFloat.of_int 85; PyFloat.of_int 85];
                       at_risk_records := 1;
                       satisfactions := [PyFloat.of_int 4; PyFloat.of_int 4];
                       status_options := [At_Risk; Promoted];
                       income_options := ["low"];
                       filtered_df := {| columns := students_columns;
                                         records := [(9, sample_row_again)] |} |})
    by (vm_compute; reflexivity).
  split; [exact H|].
  exact (proj1 (proj2 (proj2
           (view_database_filters_keep_order calm sample_table_two _ _ _ H)))).
Defined.

Lemma analytics_counts_witness :
  analytics_page calm sample_table_two =
    Drawn {| status_counts := [(At_Risk, 1%nat); (Promoted, 1%nat)];
             income_counts := [("low", 2%nat)];
             scatter_points :=
               [(PyFloat.of_int 85, PyFloat.of_int 4, At_Risk);
                (PyFloat.of_int 85, PyFloat.of_int 4, Promoted)];
             histogram_values := [(3, At_Risk); (0, Promoted)] |} /\
  (2 : nat) = size sample_table_two.
Proof.
  assert (H : analytics_page calm sample_table_two =
              Drawn {| status_counts := [(At_Risk, 1%nat); (Promoted, 1%nat)];
                       income_counts := [("low", 2%nat)];
                       scatter_points :=
                         [(PyFloat.of_int 85, PyFloat.of_int 4, At_Risk);
                          (PyFloat.of_int 85, PyFloat.of_int 4, Promoted)];
                       histogram_values := [(3, At_Risk); (0, Promoted)] |})
    by (vm_compute; reflexivity).
  split; [exact H|].
  exact (proj1 (analytics_counts calm sample_table_two _ H)).
Defined.

(** ** What one run of the script can change *)

Section Runs.
Implicit Types (db : table) (w : world) (f : form).

Lemma predict_and_save_cases w db f :
  (predict_and_save w db f).2 = db \/
  (predict_and_save w db f).2 =
    <[in_student_id f :=
        new_row w (in_satisfaction f) (in_attendance f) (in_failed_courses f)
          (in_commute f) (in_disciplinary f) (in_homework f)
          (in_family_income f) (rule_of_form f)]> db.
Proof.
  unfold predict_and_save.
  pose proof (insert_student_data_cases w db (in_student_id f) (in_satisfaction f)
                (in_attendance f) (in_failed_courses f) (in_commute f)
                (in_disciplinary f) (in_homework f) (in_family_income f)
                (rule_of_form f)) as Hcases.
  destruct (insert_student_data _ _ _ _ _ _ _ _ _ _ _) as [saved db']. exact Hcases.
Qed.

Lemma view_database_delete_cases (w_list w_delete : world) db (delete_id : Z) :
  view_database_delete w_list w_delete db delete_id = db \/
  view_database_delete w_list w_delete db delete_id = delete delete_id db.
Proof.
  unfold view_database_delete. destruct (df_empty _); [now left|].
  unfold delete_student. apply run_calls_cases.
Qed.

(** X14. One run of the script changes at most one student. A submission
    leaves the rows of every key but the one of the form as they were; the
    delete button leaves the rows of every key but the given one as they
    were and adds none; when the listing of the page raises, the button is
    not drawn and no row is deleted, whatever the table holds. *)
Theorem script_run_changes_one_student (file : option table) :
  (∀ w f (other : Z), other <> in_student_id f ->
     script_run (PredictAndSave w f) file !! other
       = initialize_database file !! other) /\
  (∀ (w_list w_delete : world) (delete_id other : Z), other <> delete_id ->
     script_run (Delete w_list w_delete delete_id) file !! other
       = initialize_database file !! other) /\
  (∀ (w_list w_delete : world) (delete_id : Z),
     script_run (Delete w_list w_delete delete_id) file ⊆ initialize_database file) /\
  (∀ (w_list w_delete : world) (delete_id : Z),
     raises_in [Connect; Execute; Close] (fault w_list) = true ->
     script_run (Delete w_list w_delete delete_id) file = initialize_database file).
Proof.
  split; [|split; [|split]].
  - intros w f other Hne. cbn [script_run].
    destruct (predict_and_save_cases w (initialize_database file) f) as [-> | ->];
      [reflexivity | now apply lookup_insert_ne].
  - intros wl wd k other Hne. cbn [script_run].
    destruct (view_database_delete_cases wl wd (initialize_database file) k)
      as [-> | ->]; [reflexivity | now apply lookup_delete_ne].
  - intros wl wd k. cbn [script_run].
    destruct (view_database_delete_cases wl wd (initialize_database file) k)
      as [-> | ->]; [reflexivity | apply delete_subseteq].
  - intros wl wd k Hraise. cbn [script_run]. unfold view_database_delete.
    now rewrite get_all_students_raise.
Qed.

Lemma within_widgets_new_row w f :
  widgets_allow f ->
  within_widgets (in_student_id f)
    (new_row w (in_satisfaction f) (in_attendance f) (in_failed_courses f)
       (in_commute f) (in_disciplinary f) (in_homework f) (in_family_income f)
       (rule_of_form f)).
Proof. intros H. exact H. Qed.

Lemma script_run_within_widgets (i : interaction) (file : option table) :
  from_widgets i ->
  (∀ db, file = Some db ->
     ∀ (k : Z) (r : student), db !! k = Some r -> within_widgets k r) ->
  ∀ (k : Z) (r : student), script_run i file !! k = Some r -> within_widgets k r.
Proof.
  intros Hi Hfile.
  assert (Hinit : ∀ (k : Z) (r : student),
            initialize_database file !! k = Some r -> within_widgets k r).
  { destruct file as [db|]; cbn; [now apply Hfile|].
    intros k r Hk. rewrite lookup_empty in Hk. discriminate. }
  intros k r. destruct i as [| w f | wl wd id]; cbn [script_run].
  - apply Hinit.
  - destruct (predict_and_save_cases w (initialize_database file) f) as [-> | ->];
      [apply Hinit|].
    rewrite lookup_insert. case_decide as Hk; [|apply Hinit].
    intros [= <-]. subst k. now apply within_widgets_new_row.
  - destruct (view_database_delete_cases wl wd (initialize_database file) id)
      as [-> | ->]; [apply Hinit|].
    rewrite lookup_delete. case_decide; [discriminate | apply Hinit].
Qed.

(** X15. The table only holds what the widgets allow. In every table
    reached through forms that respect the bounds of the widgets, every row
    has a [student_id] of at least 1, a satisfaction between 1 and 5, rates
    between 0 and 100, at most 10 failed courses and incidents, a commute
    between 1 and 120 and one of the three incomes. *)
Theorem reachable_by_widgets_within db :
  reachable_by_widgets db ->
  ∀ (student_id : Z) (r : student),
    db !! student_id = Some r -> within_widgets student_id r.
Proof.
  induction 1 as [i Hi | i db Hi Hreach IH].
  - apply script_run_within_widgets; [exact Hi | discriminate].
  - apply script_run_within_widgets; [exact Hi | now intros db' [= <-]].
Qed.

End Runs.

Lemma widgets_allow_sample_form : widgets_allow sample_form.
Proof.
  unfold widgets_allow, sample_form; cbn.
  repeat split; try reflexivity; try lia.
  apply (bool_decide_unpack _). vm_compute. exact I.
Qed.

Lemma reachable_by_widgets_within_witness :
  reachable_by_widgets (script_run (PredictAndSave calm sample_form) None) /\
  script_run (PredictAndSave calm sample_form) None !! 7 = Some sample_row /\
  within_widgets 7 sample_row.
Proof.
  assert (Hr : reachable_by_widgets (script_run (PredictAndSave calm sample_form) None))
    by (apply widgets_first_run; exact widgets_allow_sample_form).
  assert (Hk : script_run (PredictAndSave calm sample_form) None !! 7 = Some sample_row)
    by (vm_compute; reflexivity).
  split; [exact Hr|]. split; [exact Hk|].
  exact (reachable_by_widgets_within _ Hr 7 sample_row Hk).
Defined.

Lemma predict_and_save_saved_witness :
  predict_and_save later sample_table
    {| in_student_id := 7;
       in_satisfaction := PyFloat.of_int 4;
       in_attendance := PyFloat.of_int 85;
       in_failed_courses := 3;
       in_commute := 20;
       in_disciplinary := 0;
       in_homework := PyFloat.of_int 90;
       in_family_income := "low" |} = (Some At_Risk, sample_table_again) /\
  ∃ r : student,
    sample_table_again !! 7 = Some r /\
    failed_courses r = 3 /\
    promotion_status r = At_Risk /\
    prediction_date r = 1700000060.
Proof.
  assert (H : predict_and_save later sample_table
                {| in_student_id := 7;
                   in_satisfaction := PyFloat.of_int 4;
                   in_attendance := PyFloat.of_int 85;
                   in_failed_courses := 3;
                   in_commute := 20;
                   in_disciplinary := 0;
                   in_homework := PyFloat.of_int 90;
                   in_family_income := "low" |} = (Some At_Risk, sample_table_again))
    by (vm_compute; reflexivity).
  split; [exact H|].
  destruct (predict_and_save_saved _ _ _ _ _ H)
    as (_ & (r & Hr & _ & _ & Hf & _ & _ & _ & _ & Hst & Hdate & _) & _).
  exists r. split; [exact Hr|]. split; [exact Hf|]. split; [exact Hst | exact Hdate].
Defined.

(** The form as it first shows is not promoted: a satisfaction of 3.0 is not
    above 3. *)
Example default_form_at_risk :
  widgets_allow default_form /\ rule_of_form default_form = At_Risk.
Proof.
  split; [|reflexivity].
  unfold widgets_allow, default_form; cbn.
  repeat split; try reflexivity; try lia.
  apply (bool_decide_unpack _). vm_compute. exact I.
Qed.
